(** * pylandax: a shallow embedding of the Landax REST client

    The client of [src/pylandax.py] is glue between Python values, a
    remote HTTP server, the local file system and the console.  The
    embedding keeps these four parts apart:

    - Python values are the inductive [pyobj]; dictionaries keep their
      insertion order and compare keys the way Python does;
    - the dictionaries that a caller hands to a method ([params],
      [document_options]) live in a store and are passed by location,
      so that in-place updates are visible to the caller;
    - everything the client does not implement itself (the [requests]
      transport with the remote server behind it, [urllib], [json]) is
      an instance of the class [Runtime];
    - a method is a computation in the monad [M]: it threads the
      [World] and ends by returning, by raising, or by running out of
      fuel (the pagination loop is the only loop that can). *)

From Stdlib Require Import ZArith Lia.
From stdpp Require Import gmap strings list fin_maps pretty.

Set Warnings "-register-all".
Open Scope Z_scope.
Open Scope string_scope.

(* ===================================================================== *)
(** ** Python values *)
(* ===================================================================== *)

(** Hashable values, the ones that can be dictionary keys. *)
Inductive hkey : Type :=
  | KNone
  | KBool (b : bool)
  | KInt (n : Z)
  | KStr (s : string).

(** The values the client handles: what [json.loads] produces and what
    [json.dumps] accepts.  Numbers are integers; the client never does
    arithmetic on floats. *)
Inductive pyobj : Type :=
  | PNone
  | PBool (b : bool)
  | PInt (n : Z)
  | PStr (s : string)
  | PList (xs : list pyobj)
  | PDict (d : list (hkey * pyobj)).

(** A dictionary, in insertion order. *)
Definition dict : Type := list (hkey * pyobj).

(** [True == 1] and [False == 0] in Python, and they hash alike. *)
Definition key_num (k : hkey) : option Z :=
  match k with
  | KBool b => Some (if b then 1 else 0)
  | KInt n => Some n
  | _ => None
  end.

Definition key_eqb (a b : hkey) : bool :=
  match a, b with
  | KNone, KNone => true
  | KStr s, KStr t => String.eqb s t
  | _, _ =>
      match key_num a, key_num b with
      | Some x, Some y => Z.eqb x y
      | _, _ => false
      end
  end.

(** [hash(v)]: lists and dictionaries are unhashable. *)
Definition as_key (v : pyobj) : option hkey :=
  match v with
  | PNone => Some KNone
  | PBool b => Some (KBool b)
  | PInt n => Some (KInt n)
  | PStr s => Some (KStr s)
  | PList _ | PDict _ => None
  end.

(** [str(k)], as an f-string formats a key. *)
Definition str_key (k : hkey) : string :=
  match k with
  | KNone => "None"
  | KBool true => "True"
  | KBool false => "False"
  | KInt n => pretty n
  | KStr s => s
  end.

(** [d[k]] as a lookup: the entry whose key equals [k]. *)
Fixpoint dict_get (k : hkey) (d : dict) : option pyobj :=
  match d with
  | [] => None
  | (k', v) :: d' => if key_eqb k' k then Some v else dict_get k d'
  end.

(** [k in d] *)
Definition dict_mem (k : hkey) (d : dict) : bool :=
  match dict_get k d with Some _ => true | None => false end.

(** [d[k] = v]: an existing entry keeps its place (and its key object),
    a new one goes last. *)
Fixpoint dict_set (k : hkey) (v : pyobj) (d : dict) : dict :=
  match d with
  | [] => [(k, v)]
  | (k', v') :: d' =>
      if key_eqb k' k then (k', v) :: d' else (k', v') :: dict_set k v d'
  end.

(** [del d[k]] *)
Definition dict_del (k : hkey) (d : dict) : dict :=
  List.filter (fun e => negb (key_eqb (fst e) k)) d.

(* ===================================================================== *)
(** ** Exceptions and outcomes *)
(* ===================================================================== *)

Inductive exn : Type :=
  | TypeError (msg : string)
  | KeyError (key : string)
  | AttributeError (name : string)
  | NameError
  | FileNotFoundError (msg : string)
  | IsADirectoryError (msg : string)
  | JSONDecodeError
  | RequestException (msg : string)
  | LandaxAuthException (msg : string)
  | LandaxDataException (msg : string).

Inductive outcome (A : Type) : Type :=
  | Returns (a : A)
  | Raises (e : exn)
  | OutOfFuel.
Arguments Returns {A} a.
Arguments Raises {A} e.
Arguments OutOfFuel {A}.

(** [s in o] for a string [s]: key membership in a dictionary, element
    membership in a list, substring test in a string. *)
Definition str_in (s : string) (o : pyobj) : exn + bool :=
  match o with
  | PDict d => inr (dict_mem (KStr s) d)
  | PList xs =>
      inr (existsb (fun x => match x with PStr t => String.eqb t s | _ => false end) xs)
  | PStr t => inr (match String.index 0 s t with Some _ => true | None => false end)
  | _ => inl (TypeError "argument is not iterable")
  end.

(** [o[s]] for a string [s]. *)
Definition getitem_str (o : pyobj) (s : string) : exn + pyobj :=
  match o with
  | PDict d =>
      match dict_get (KStr s) d with
      | Some v => inr v
      | None => inl (KeyError s)
      end
  | PList _ => inl (TypeError "list indices must be integers or slices, not str")
  | PStr _ => inl (TypeError "string indices must be integers, not 'str'")
  | _ => inl (TypeError "object is not subscriptable")
  end.

Definition num_of (o : pyobj) : option Z :=
  match o with
  | PBool b => Some (if b then 1 else 0)
  | PInt n => Some n
  | _ => None
  end.

(** [a + b] *)
Definition py_add (a b : pyobj) : exn + pyobj :=
  match a, b with
  | PList xs, PList ys => inr (PList (xs ++ ys))
  | PStr s, PStr t => inr (PStr (s +:+ t))
  | _, _ =>
      match num_of a, num_of b with
      | Some x, Some y => inr (PInt (x + y))
      | _, _ => inl (TypeError "unsupported operand type(s) for +")
      end
  end.

(* ===================================================================== *)
(** ** Paths and the file system *)
(* ===================================================================== *)

(** A [pathlib.Path]: its components, and whether it starts at the root. *)
Record Path : Type := { anchored : bool; parts : list string }.

(** [str(p)] *)
Definition path_str (p : Path) : string :=
  match parts p with
  | [] => if anchored p then "/" else "."
  | _ => (if anchored p then "/" else "") +:+ String.concat "/" (parts p)
  end.

(** [p.name] *)
Definition path_name (p : Path) : string := List.last (parts p) "".

(** [Path(p, name)] for a single relative component [name]. *)
Definition path_child (p : Path) (name : string) : Path :=
  {| anchored := anchored p; parts := parts p ++ [name] |}.

Inductive fsnode : Type :=
  | RegularFile (content : string)
  | Directory.

(* ===================================================================== *)
(** ** HTTP *)
(* ===================================================================== *)

(** One part of a multipart upload: [(filename, content)]. *)
Definition part : Type := (option string * string)%type.

Inductive payload : Type :=
  | NoBody
  | JsonBody (v : pyobj)                     (* json=... *)
  | FilesBody (files : list (string * part)) (* files=... *).

Record Request : Type := {
  method : string;
  url : string;
  req_headers : option dict;
  body : payload
}.

Record Response : Type := {
  status_code : Z;
  content : string
}.

(** What the client calls but does not implement. *)
Class Runtime : Type := {
  (** the state of the remote end *)
  remote : Type;
  (** [requests.request]: a response, or a transport failure *)
  send : Request -> remote -> (exn + Response) * remote;
  (** [urllib.parse.urlencode] of a non-empty dictionary *)
  urlencode : dict -> string;
  (** [json.dumps]*)
  json_dumps : pyobj -> string;
  (** [json.loads]; [None] when the text is not JSON *)
  json_loads : string -> option pyobj;
  (** [str(b)] of a byte string *)
  str_bytes : string -> string
}.

(** Console output: [print] and the [logging] calls. *)
Inductive output : Type :=
  | Print (line : string)
  | LogWarning (msg : string)
  | LogError (msg : string).

Definition loc : Type := positive.

(* ===================================================================== *)
(** ** The world and the monad of methods *)
(* ===================================================================== *)

Section Model.
Context `{RT : Runtime}.

Record World : Type := {
  net : remote;                (* the remote end *)
  sent : list Request;         (* the requests issued so far, oldest first *)
  console : list output;       (* what was printed and logged, oldest first *)
  store : gmap loc dict;       (* the dictionaries shared with the caller *)
  disk : gmap string fsnode    (* the file system, by path *)
}.

Definition M (A : Type) : Type := World -> outcome A * World.

#[global] Instance M_ret : MRet M := fun A a w => (Returns a, w).

#[global] Instance M_bind : MBind M := fun A B f m w =>
  match m w with
  | (Returns a, w') => f a w'
  | (Raises e, w') => (Raises e, w')
  | (OutOfFuel, w') => (OutOfFuel, w')
  end.

Definition raise {A} (e : exn) : M A := fun w => (Raises e, w).

Definition out_of_fuel {A} : M A := fun w => (OutOfFuel, w).

Definition lift {A} (r : exn + A) : M A :=
  match r with
  | inl e => raise e
  | inr a => mret a
  end.

Definition skip : M unit := mret tt.

(** [print], [logging.warning], [logging.error] *)
Definition emit (o : output) : M unit := fun w =>
  (Returns tt,
   {| net := net w; sent := sent w; console := console w ++ [o];
      store := store w; disk := disk w |}).

(** One HTTP exchange. *)
Definition request (r : Request) : M Response := fun w =>
  let (answer, net') := send r (net w) in
  (match answer with inl e => Raises e | inr resp => Returns resp end,
   {| net := net'; sent := sent w ++ [r]; console := console w;
      store := store w; disk := disk w |}).

(** [{...}]: a new dictionary object. *)
Definition alloc (d : dict) : M loc := fun w =>
  let l := fresh (dom (store w)) in
  (Returns l,
   {| net := net w; sent := sent w; console := console w;
      store := <[l := d]> (store w); disk := disk w |}).

(** The dictionary at a location.  Every location a method holds was
    given to it by its caller or by [alloc]; a location outside the
    store is a name bound to no object. *)
Definition deref (l : loc) : M dict := fun w =>
  match store w !! l with
  | Some d => (Returns d, w)
  | None => (Raises NameError, w)
  end.

Definition put (l : loc) (d : dict) : M unit := fun w =>
  (Returns tt,
   {| net := net w; sent := sent w; console := console w;
      store := <[l := d]> (store w); disk := disk w |}).

Definition update (l : loc) (f : dict -> dict) : M unit :=
  d ← deref l; put l (f d).

(** [k in d], [del d[k]], [d[k] = v] on a shared dictionary. *)
Definition contains (l : loc) (k : string) : M bool :=
  d ← deref l; mret (dict_mem (KStr k) d).

Definition delitem (l : loc) (k : string) : M unit :=
  update l (dict_del (KStr k)).

Definition setitem (l : loc) (k : string) (v : pyobj) : M unit :=
  update l (dict_set (KStr k) v).

(** [if x is None: x = {}] *)
Definition or_new_dict (x : option loc) : M loc :=
  match x with
  | Some l => mret l
  | None => alloc []
  end.

(** [p.exists()] *)
Definition path_exists (p : Path) : M bool := fun w =>
  (Returns (bool_decide (is_Some (disk w !! path_str p))), w).

(** [p.read_bytes()], and [open(p).read()] *)
Definition read_file (p : Path) : M string := fun w =>
  match disk w !! path_str p with
  | Some (RegularFile c) => (Returns c, w)
  | Some Directory => (Raises (IsADirectoryError (path_str p)), w)
  | None => (Raises (FileNotFoundError (path_str p)), w)
  end.

(** [response.json()] *)
Definition json (r : Response) : M pyobj :=
  match json_loads (content r) with
  | Some v => mret v
  | None => raise JSONDecodeError
  end.

(** [response.text] *)
Definition text (r : Response) : string := content r.

(** [requests.get(url, headers=...)].  A URL that is not a string is
    turned into one by [str], which never yields a scheme. *)
Definition requests_get (url : pyobj) (hs : dict) : M Response :=
  match url with
  | PStr u =>
      request {| method := "GET"; url := u; req_headers := Some hs; body := NoBody |}
  | _ => raise (RequestException "MissingSchema")
  end.

(* ===================================================================== *)
(** ** The client *)
(* ===================================================================== *)

(** The attributes of a [Client] object; [None] is an attribute that
    was never assigned. *)
Record Client : Type := {
  script_dir : Path;
  username : option pyobj;
  password : option pyobj;
  client_id : option pyobj;
  client_secret : option pyobj;
  base_url : option string;
  api_url : option string;
  headers : option dict;
  oauth_token : option pyobj
}.

(** [self.name] *)
Definition attr {A} (name : string) (field : option A) : M A :=
  match field with
  | Some a => mret a
  | None => raise (AttributeError name)
  end.

Definition required_credentials : list string :=
  ["username"; "password"; "client_id"; "client_secret"].

Definition generate_url (base_url : string) (html_params : dict) : string :=
  if (length html_params =? 0)%nat then base_url
  else base_url +:+ "?" +:+ urlencode html_params.

Definition get_oauth_token (self : Client) : M pyobj :=
  base ← attr "base_url" (base_url self);
  let url := base +:+ "authenticate/token?grant_type=password" in
  cid ← attr "client_id" (client_id self);
  secret ← attr "client_secret" (client_secret self);
  user ← attr "username" (username self);
  pass ← attr "password" (password self);
  let post_body :=
    [(KStr "client_id", cid); (KStr "client_secret", secret);
     (KStr "username", user); (KStr "password", pass)] in
  result ← request {| method := "POST"; url := url; req_headers := None;
                      body := JsonBody (PDict post_body) |};
  if negb (status_code result =? 200)%Z then
    raise (LandaxAuthException
             ("Landax returned non-200 response when getting OAuth token. Body: "
              +:+ str_bytes (content result)))
  else
    response_data ← json result;
    present ← lift (str_in "access_token" response_data);
    if negb present then
      raise (LandaxAuthException
               ("Landax response was non-json. Body: " +:+ str_bytes (content result)))
    else lift (getitem_str response_data "access_token").

(** The constructor.  [module_dir] is [Path(__file__).parent.absolute()]. *)
Definition __init__ (module_dir : Path) (url : string) (credentials : dict)
    (version : string) : M Client :=
  let self :=
    {| script_dir := module_dir; username := None; password := None;
       client_id := None; client_secret := None; base_url := None;
       api_url := None; headers := None; oauth_token := None |} in
  match List.find (fun key => negb (dict_mem (KStr key) credentials))
                  required_credentials with
  | Some key =>
      emit (LogError ("Error: credential field is required: " +:+ key));;
      mret self
  | None =>
      user ← lift (getitem_str (PDict credentials) "username");
      pass ← lift (getitem_str (PDict credentials) "password");
      cid ← lift (getitem_str (PDict credentials) "client_id");
      secret ← lift (getitem_str (PDict credentials) "client_secret");
      let base := "https://" +:+ url +:+ "/" in
      let api := base +:+ "api/" +:+ version +:+ "/" in
      let self :=
        {| script_dir := module_dir; username := Some user; password := Some pass;
           client_id := Some cid; client_secret := Some secret;
           base_url := Some base; api_url := Some api; headers := Some [];
           oauth_token := None |} in
      token ← get_oauth_token self;
      bearer ← lift (py_add (PStr "Bearer ") token);
      mret {| script_dir := module_dir; username := Some user; password := Some pass;
              client_id := Some cid; client_secret := Some secret;
              base_url := Some base; api_url := Some api;
              headers := Some (dict_set (KStr "Authorization") bearer []);
              oauth_token := Some token |}
  end.

Definition get_single_data (self : Client) (data_model : string) (data_id : Z)
    (params : option loc) : M pyobj :=
  params ← or_new_dict params;
  api ← attr "api_url" (api_url self);
  let base_url := api +:+ data_model +:+ "(" +:+ pretty data_id +:+ ")" in
  html_params ← deref params;
  let url := generate_url base_url html_params in
  hs ← attr "headers" (headers self);
  response ← requests_get (PStr url) hs;
  if (status_code response =? 404)%Z then mret PNone
  else json response.

Definition request_raw (self : Client) (url : pyobj) : M Response :=
  hs ← attr "headers" (headers self);
  requests_get url hs.

(** The [while] loop of [get_all_data]; one unit of fuel per round. *)
Fixpoint follow_next_links (fuel : nat) (self : Client) (response : Response)
    (data : pyobj) : M pyobj :=
  body ← json response;
  more ← lift (str_in "@odata.nextLink" body);
  if (more : bool) then
    match fuel with
    | O => out_of_fuel
    | S fuel' =>
        body ← json response;
        new_url ← lift (getitem_str body "@odata.nextLink");
        response' ← request_raw self new_url;
        body' ← json response';
        page ← lift (getitem_str body' "value");
        data' ← lift (py_add data page);
        follow_next_links fuel' self response' data'
    end
  else mret data.

Definition get_all_data (fuel : nat) (self : Client) (data_model : string)
    (params : option loc) (select : option (list string)) : M pyobj :=
  params ← or_new_dict params;
  has_top ← contains params "$top";
  (if (has_top : bool) then
     emit (Print "Warning: pylandax.get_all_data does not support $top parameter. It will be ignored.");;
     delitem params "$top"
   else skip);;
  has_skip ← contains params "$skip";
  (if (has_skip : bool) then
     emit (Print "Warning: pylandax.get_all_data does not support $skip parameter. It will be ignored.");;
     delitem params "$skip"
   else skip);;
  match select with
  | Some fields => setitem params "$select" (PStr (String.concat "," fields))
  | None => skip
  end;;
  api ← attr "api_url" (api_url self);
  let base_url := api +:+ data_model in
  html_params ← deref params;
  let initial_url := generate_url base_url html_params in
  response ← request_raw self (PStr initial_url);
  body ← json response;
  data ← lift (getitem_str body "value");
  follow_next_links fuel self response data.

Definition documents_createdocument (self : Client) (filedata : string)
    (filename : string) (document_object : loc) (document_link : option loc)
    : M Response :=
  document ← deref document_object;
  let files :=
    [("document", (None, json_dumps (PDict document)));
     ("fileData", (Some filename, filedata))] in
  files ← match document_link with
          | Some l =>
              link ← deref l;
              mret (files ++ [("documentLink", (None, json_dumps (PDict link)))])%list
          | None => mret files
          end;
  api ← attr "api_url" (api_url self);
  let url := api +:+ "Documents/CreateDocument" in
  hs ← attr "headers" (headers self);
  request {| method := "POST"; url := url; req_headers := Some hs;
             body := FilesBody files |}.

Definition upload_document (self : Client) (filedata : string) (filename : string)
    (folder_id : pyobj) (document_options : option loc) : M Response :=
  document_options ← or_new_dict document_options;
  has_folder ← contains document_options "FolderId";
  (if (has_folder : bool) then
     emit (LogWarning "Warning: pylandax.upload_document does not support FolderId parameter in document_options. It will be ignored.")
   else skip);;
  has_module ← contains document_options "ModuleId";
  (if (has_module : bool) then
     emit (LogWarning "Warning: pylandax.upload_document does not support ModuleId parameter in document_options. It will be ignored. To upload a document linked to an object in a module, use pylandax.upload_linked_document instead.");;
     delitem document_options "ModuleId"
   else skip);;
  setitem document_options "FolderId" folder_id;;
  documents_createdocument self filedata filename document_options None.

(** The [file] argument of [upload_document_from_file]: a
    [pathlib.Path], or a value of any other type. *)
Inductive file_arg : Type :=
  | IsPath (p : Path)
  | NotPath (v : pyobj).

(** The call [self.upload_document(document_bytes, file.name, document_object)]
    is positional: [document_object] binds to the third parameter of
    [upload_document], which is [folder_id], and [document_options]
    takes its default.  The dictionary bound to [folder_id] is only
    serialised, so it is passed with its content at the time of the call. *)
Definition upload_document_from_file (self : Client) (file : file_arg)
    (document_object : option loc) : M Response :=
  document_object ← or_new_dict document_object;
  match file with
  | NotPath _ => raise (TypeError "file must be a pathlib.Path")
  | IsPath file =>
      found ← path_exists file;
      if negb found then
        raise (FileNotFoundError ("file does not exist: " +:+ path_str file))
      else
        document_bytes ← read_file file;
        document ← deref document_object;
        upload_document self document_bytes (path_name file) (PDict document) None
  end.

(** The module ids that have a foreign-key field in a document link. *)
Definition id_key_mapping : dict :=
  [(KInt 6, PStr "IncidentId");
   (KInt 10, PStr "CoworkerId");
   (KInt 24, PStr "EquipmentId")].

Definition upload_linked_document (self : Client) (filedata : string)
    (filename : string) (folder_id : pyobj) (module_name : string)
    (linked_object_id : Z) (document_options : option loc)
    : M (option Response) :=
  document_options ← or_new_dict document_options;
  has_folder ← contains document_options "FolderId";
  (if (has_folder : bool) then
     emit (LogWarning "Warning: pylandax.upload_linked_document does not support FolderId parameter in document_options. It will be ignored.")
   else skip);;
  has_module ← contains document_options "ModuleId";
  (if (has_module : bool) then
     emit (LogWarning "Warning: pylandax.upload_linked_document does not support ModuleId parameter in document_options. It will be ignored.")
   else skip);;
  table ← read_file (path_child (script_dir self) "modules.json");
  modules ← match json_loads table with
            | Some v => mret v
            | None => raise JSONDecodeError
            end;
  known ← lift (str_in module_name modules);
  if negb known then
    emit (LogError ("Error in pylandax.upload_linked_document: Module "
                    +:+ module_name +:+ " not found."));;
    mret None
  else
    module_id ← lift (getitem_str modules module_name);
    match as_key module_id with
    | None => raise (TypeError "unhashable type")
    | Some id =>
        match dict_get id id_key_mapping with
        | None =>
            emit (LogError ("Error in pylandax.upload_linked_document: Module "
                            +:+ module_name +:+ "'s id has no mapping to key"));;
            mret None
        | Some object_id_key =>
            setitem document_options "ModuleId" module_id;;
            match as_key object_id_key with
            | None => raise (TypeError "unhashable type")
            | Some field =>
                let document_link := [(field, PInt linked_object_id)] in
                let document_link :=
                  match folder_id with
                  | PNone => document_link
                  | _ => dict_set (KStr "FolderId") folder_id document_link
                  end in
                link ← alloc document_link;
                upload_response ←
                  documents_createdocument self filedata filename
                    document_options (Some link);
                (if negb (status_code upload_response =? 200)%Z then
                   emit (LogError ("Error uploading document with filename "
                                   +:+ filename +:+ ": " +:+ text upload_response))
                 else skip);;
                mret (Some upload_response)
            end
        end
    end.

Definition get_document_content (self : Client) (document_id : Z) (as_pdf : bool)
    : M string :=
  let original_arg := if as_pdf then "False" else "True" in
  api ← attr "api_url" (api_url self);
  let url := api +:+ "Documents/GetContent?documentid=" +:+ pretty document_id
             +:+ "&original=" +:+ original_arg +:+ "&encode=raw" in
  hs ← attr "headers" (headers self);
  response ← requests_get (PStr url) hs;
  if negb (status_code response =? 200)%Z then
    raise (LandaxDataException
             ("Error in GET " +:+ url
              +:+ ". Expected status code: 200. Received status code: "
              +:+ pretty (status_code response) +:+ ".Response body: "
              +:+ text response))
  else mret (content response).

(** The [for] loop of [list_to_dict], with the dictionary built so far. *)
Fixpoint list_to_dict_from (return_dict : dict) (list_in : list pyobj)
    (metakey : string) : M dict :=
  match list_in with
  | [] => mret return_dict
  | record :: rest =>
      key ← lift (getitem_str record metakey);
      match as_key key with
      | None => raise (TypeError "unhashable type")
      | Some k =>
          (if dict_mem k return_dict then
             emit (Print ("Warning: " +:+ str_key k +:+ " already present, overwriting"))
           else skip);;
          list_to_dict_from (dict_set k record return_dict) rest metakey
      end
  end.

Definition list_to_dict (list_in : list pyobj) (metakey : string) : M dict :=
  list_to_dict_from [] list_in metakey.

End Model.

(* ===================================================================== *)
(** ** A test double for the runtime *)
(* ===================================================================== *)

(** The remote end is a queue of canned answers, as when [requests] is
    mocked with a list of side effects; [json.loads] recognises the
    serialisations of a fixed list of values.  The examples run the
    client against it. *)
Module Mock.

Definition dq : string := String (Ascii.ascii_of_nat 34) EmptyString.

(** [json.dumps] with the default separators, for values whose strings
    need no escaping. *)
Fixpoint dumps (v : pyobj) : string :=
  match v with
  | PNone => "null"
  | PBool true => "true"
  | PBool false => "false"
  | PInt n => pretty n
  | PStr s => dq +:+ s +:+ dq
  | PList xs => "[" +:+ String.concat ", " (List.map dumps xs) +:+ "]"
  | PDict d =>
      "{" +:+ String.concat ", "
                (List.map (fun e => dq +:+ match fst e with
                                          | KNone => "null"
                                          | KBool true => "true"
                                          | KBool false => "false"
                                          | KInt n => pretty n
                                          | KStr s => s
                                          end +:+ dq +:+ ": " +:+ dumps (snd e)) d)
          +:+ "}"
  end.

(** The bodies the canned answers carry. *)
Definition page_one : pyobj :=
  PDict [(KStr "value", PList [PInt 1; PInt 2]);
         (KStr "@odata.nextLink", PStr "https://landax.test/api/v20/Items?$skip=2")].

Definition page_two : pyobj :=
  PDict [(KStr "value", PList [PInt 3])].

Definition token_body : pyobj :=
  PDict [(KStr "access_token", PStr "s3cr3t")].

(** A sample module table. *)
Definition module_table : pyobj :=
  PDict [(KStr "INCIDENTS", PInt 6); (KStr "PROJECTS", PInt 3)].

Definition contact : pyobj :=
  PDict [(KStr "Id", PInt 7); (KStr "Name", PStr "Ada")].

Definition namesake : pyobj :=
  PDict [(KStr "Id", PInt 7); (KStr "Name", PStr "Bob")].

Definition fixtures : list pyobj :=
  [page_one; page_two; token_body; module_table; contact].

(** Parameters of a caller who asks for the first five records. *)
Definition first_five : dict :=
  [(KStr "$top", PInt 5); (KStr "$filter", PStr "Id gt 1")].

Definition credentials : dict :=
  [(KStr "username", PStr "ada"); (KStr "password", PStr "pw");
   (KStr "client_id", PStr "cid"); (KStr "client_secret", PStr "cs")].

Definition loads (s : string) : option pyobj :=
  List.find (fun v => String.eqb (dumps v) s) fixtures.

(** Joins [key=value] pairs; it does not percent-encode. *)
Definition plain_urlencode (d : dict) : string :=
  String.concat "&"
    (List.map (fun e => str_key (fst e) +:+ "=" +:+
                        match snd e with PStr s => s | v => dumps v end) d).

Definition answers : Type := list (exn + Response).

Definition next_answer (r : Request) (q : answers) : (exn + Response) * answers :=
  match q with
  | a :: q' => (a, q')
  | [] => (inl (RequestException "ConnectionError"), [])
  end.

Definition runtime : Runtime :=
  {| remote := answers;
     send := next_answer;
     urlencode := plain_urlencode;
     json_dumps := dumps;
     json_loads := loads;
     str_bytes := fun s => "b'" +:+ s +:+ "'" |}.

Definition ok (v : pyobj) : exn + Response :=
  inr {| status_code := 200; content := dumps v |}.

Definition status (code : Z) (text : string) : exn + Response :=
  inr {| status_code := code; content := text |}.

(** A world with the given answers queued, nothing sent or printed. *)
Definition world (q : answers) (st : gmap loc dict) (fs : gmap string fsnode)
    : @World runtime :=
  {| net := (q : @remote runtime); sent := []; console := []; store := st; disk := fs |}.

Definition api : string := "https://landax.test/api/v20/".

Definition auth : dict := [(KStr "Authorization", PStr "Bearer s3cr3t")].

Definition module_dir : Path := {| anchored := true; parts := ["opt"; "pylandax"] |}.

Definition client : Client :=
  {| script_dir := module_dir;
     username := Some (PStr "ada"); password := Some (PStr "pw");
     client_id := Some (PStr "cid"); client_secret := Some (PStr "cs");
     base_url := Some "https://landax.test/";
     api_url := Some api;
     headers := Some auth;
     oauth_token := Some (PStr "s3cr3t") |}.

End Mock.

(* ===================================================================== *)
(** ** Vocabulary of the statements *)
(* ===================================================================== *)

(** Keys that Python takes for equal have the same normal form. *)
Definition key_norm (k : hkey) : hkey :=
  match k with
  | KBool b => KInt (if b then 1 else 0)
  | _ => k
  end.

(** The key under which [list_to_dict] files a record. *)
Definition record_key (metakey : string) (record : pyobj) : option hkey :=
  match getitem_str record metakey with
  | inr v => as_key v
  | inl _ => None
  end.

Definition filed_under (metakey : string) (k : hkey) (record : pyobj) : bool :=
  match record_key metakey record with
  | Some k' => key_eqb k' k
  | None => false
  end.

(** The last record of the list whose key field equals [k]. *)
Definition last_with (metakey : string) (k : hkey) (records : list pyobj)
    : option pyobj :=
  List.find (filed_under metakey k) (rev records).

Definition overwrite_warning (o : output) : Prop :=
  exists k, o = Print ("Warning: " +:+ str_key k +:+ " already present, overwriting").

(** The caller's [params] once [get_all_data] has dropped the two
    pagination parameters: the same dictionary with those entries absent. *)
Definition strip (d : dict) : dict :=
  dict_del (KStr "$skip") (dict_del (KStr "$top") d).

(** ... and once it has merged the [select] list. *)
Definition with_select (select : option (list string)) (d : dict) : dict :=
  match select with
  | Some fields => dict_set (KStr "$select") (PStr (String.concat "," fields)) d
  | None => d
  end.

Definition prepared (select : option (list string)) (d : dict) : dict :=
  with_select select (strip d).

Definition top_warning : output :=
  Print "Warning: pylandax.get_all_data does not support $top parameter. It will be ignored.".

Definition skip_warning : output :=
  Print "Warning: pylandax.get_all_data does not support $skip parameter. It will be ignored.".

(** The warnings [get_all_data] prints for the parameters [d]. *)
Definition pagination_warnings (d : dict) : list output :=
  (if dict_mem (KStr "$top") d then [top_warning] else []) ++
  (if dict_mem (KStr "$skip") d then [skip_warning] else []).

Section Vocabulary.
Context `{RT : Runtime}.

(** The [GET] that [requests.get(u, headers=hs)] puts on the wire. *)
Definition get_request (u : string) (hs : dict) : Request :=
  {| method := "GET"; url := u; req_headers := Some hs; body := NoBody |}.

(** [d] is the dictionary a method works on when it is called with the
    optional argument [arg]: the caller's, or a new empty one. *)
Definition arg_dict (w : World) (arg : option loc) (d : dict) : Prop :=
  match arg with
  | Some l => store w !! l = Some d
  | None => d = []
  end.

(** The URL [get_document_content] fetches. *)
Definition content_url (api : string) (document_id : Z) (as_pdf : bool) : string :=
  api +:+ "Documents/GetContent?documentid=" +:+ pretty document_id
  +:+ "&original=" +:+ (if as_pdf then "False" else "True") +:+ "&encode=raw".

(** The password-grant request of [get_oauth_token]. *)
Definition token_request (base : string) (cid secret user pass : pyobj) : Request :=
  {| method := "POST";
     url := base +:+ "authenticate/token?grant_type=password";
     req_headers := None;
     body := JsonBody (PDict [(KStr "client_id", cid); (KStr "client_secret", secret);
                              (KStr "username", user); (KStr "password", pass)]) |}.

(** The world after more console output. *)
Definition log_more (w : World) (lines : list output) : World :=
  {| net := net w; sent := sent w; console := console w ++ lines;
     store := store w; disk := disk w |}.

(** The world with another console. *)
Definition with_console (c : list output) (w : World) : World :=
  {| net := net w; sent := sent w; console := c; store := store w; disk := disk w |}.

(** The world after [d] is stored at [l]. *)
Definition with_dict (w : World) (l : loc) (d : dict) : World :=
  {| net := net w; sent := sent w; console := console w;
     store := <[l := d]> (store w); disk := disk w |}.

(** A computation that only talks to the remote end: it leaves the
    store, the disk and the console alone, and does not depend on what
    the console holds. *)
Definition wire_only {A} (m : M A) : Prop :=
  forall w,
    store (snd (m w)) = store w /\
    disk (snd (m w)) = disk w /\
    console (snd (m w)) = console w /\
    forall c, m (with_console c w) = (fst (m w), with_console c (snd (m w))).

(** What [get_all_data] does once the parameters at [params] are
    prepared: the first request and the pagination loop. *)
Definition fetch_pages (fuel : nat) (self : Client) (data_model : string)
    (params : loc) : M pyobj :=
  api ← attr "api_url" (api_url self);
  let base_url := api +:+ data_model in
  html_params ← deref params;
  let initial_url := generate_url base_url html_params in
  response ← request_raw self (PStr initial_url);
  body ← json response;
  data ← lift (getitem_str body "value");
  follow_next_links fuel self response data.

(** The remote end, in state [n], serves the pages [pages] from the URL
    [u] on: each answer carries one page under ["value"], every answer
    but the last names the URL of the next one under ["@odata.nextLink"],
    and the last answer leaves the remote end in state [n']. *)
Fixpoint serves (hs : dict) (n : remote) (u : string) (pages : list (list pyobj))
    (n' : remote) : Prop :=
  match pages with
  | [] => False
  | page :: rest =>
      exists resp n1 body,
        send (get_request u hs) n = (inr resp, n1) /\
        json_loads (content resp) = Some body /\
        getitem_str body "value" = inr (PList page) /\
        match rest with
        | [] => str_in "@odata.nextLink" body = inr false /\ n1 = n'
        | _ :: _ =>
            exists u', getitem_str body "@odata.nextLink" = inr (PStr u') /\
                       serves hs n1 u' rest n'
        end
  end.

(** The pages that follow an answer with body [body]. *)
Definition goes_on (hs : dict) (body : pyobj) (n : remote)
    (rest : list (list pyobj)) (n' : remote) : Prop :=
  match rest with
  | [] => str_in "@odata.nextLink" body = inr false /\ n = n'
  | _ :: _ =>
      exists u', getitem_str body "@odata.nextLink" = inr (PStr u') /\
                 serves hs n u' rest n'
  end.

(** The multipart [POST] of [documents_createdocument]. *)
Definition create_request (api : string) (hs : dict) (files : list (string * part))
    : Request :=
  {| method := "POST"; url := api +:+ "Documents/CreateDocument";
     req_headers := Some hs; body := FilesBody files |}.

End Vocabulary.

(* ===================================================================== *)
(** ** The other methods of the client *)
(* ===================================================================== *)

(** [custom_request] is the one method that raises [ValueError]; it
    does so as its last act, and the model hands that error back in a
    sum.  Every other exception travels in the monad as before. *)
Inductive usage_error : Type :=
  | ValueError (msg : string).

(** [json=v] in a call of [requests]: [None] sends no body. *)
Definition json_payload (v : pyobj) : payload :=
  match v with
  | PNone => NoBody
  | _ => JsonBody v
  end.

(** [os.getenv(name)] *)
Definition getenv (env : gmap string string) (name : string) : pyobj :=
  match env !! name with
  | Some v => PStr v
  | None => PNone
  end.

(** The [credentials] entry of [conf] in [main] of both task scripts. *)
Definition conf_credentials (env : gmap string string) : dict :=
  [(KStr "username", getenv env "LANDAX_USERNAME");
   (KStr "password", getenv env "LANDAX_PASSWORD");
   (KStr "client_id", getenv env "LANDAX_CLIENT_ID");
   (KStr "client_secret", getenv env "LANDAX_CLIENT_SECRET")].

(** How an f-string renders the value of [os.getenv]. *)
Definition format_env (v : pyobj) : string :=
  match v with
  | PStr s => s
  | _ => "None"
  end.

Section MoreMethods.
Context `{RT : Runtime}.

Definition post_data (self : Client) (data_model : string) (data : pyobj)
    : M Response :=
  api ← attr "api_url" (api_url self);
  let url := api +:+ data_model in
  hs ← attr "headers" (headers self);
  let headers := dict_set (KStr "Content-Type") (PStr "application/json") hs in
  request {| method := "POST"; url := url; req_headers := Some headers;
             body := json_payload data |}.

Definition patch_data (self : Client) (data_model : string) (key : Z) (data : pyobj)
    : M Response :=
  api ← attr "api_url" (api_url self);
  let url := api +:+ data_model +:+ "(" +:+ pretty key +:+ ")" in
  hs ← attr "headers" (headers self);
  let headers := dict_set (KStr "Content-Type") (PStr "application/json") hs in
  request {| method := "PATCH"; url := url; req_headers := Some headers;
             body := json_payload data |}.

Definition delete_data (self : Client) (data_model : string) (key : string)
    : M Response :=
  api ← attr "api_url" (api_url self);
  let url := api +:+ data_model +:+ "(" +:+ key +:+ ")?$format=json" in
  hs ← attr "headers" (headers self);
  request {| method := "DELETE"; url := url; req_headers := Some hs; body := NoBody |}.

Definition request_data (self : Client) (url : string) : M pyobj :=
  hs ← attr "headers" (headers self);
  response ← requests_get (PStr url) hs;
  body ← json response;
  lift (getitem_str body "value").

Definition get_documents (fuel : nat) (self : Client) (folder_id : Z) : M pyobj :=
  params ← alloc [(KStr "$filter", PStr ("FolderId eq " +:+ pretty folder_id))];
  get_all_data fuel self "Documents" (Some params) None.

Definition get_model_documents (fuel : nat) (self : Client) (model : string) (id_ : Z)
    : M pyobj :=
  let url_fragment := model +:+ "(" +:+ pretty id_ +:+ ")/Documents" in
  get_all_data fuel self url_fragment None None.

Definition get_linked_documents (fuel : nat) (self : Client) (model : string) (id_ : Z)
    : M pyobj :=
  let url_fragment := model +:+ "(" +:+ pretty id_ +:+ ")/Documents" in
  get_all_data fuel self url_fragment None None.

Definition custom_request (self : Client) (partial_url : string) (method : string)
    (data : pyobj) : M (usage_error + Response) :=
  api ← attr "api_url" (api_url self);
  let url := api +:+ partial_url in
  if String.eqb method "GET" then
    hs ← attr "headers" (headers self);
    response ← request {| method := "GET"; url := url; req_headers := Some hs;
                          body := NoBody |};
    mret (inr response)
  else if String.eqb method "POST" then
    hs ← attr "headers" (headers self);
    response ← request {| method := "POST"; url := url; req_headers := Some hs;
                          body := json_payload data |};
    mret (inr response)
  else if String.eqb method "PATCH" then
    hs ← attr "headers" (headers self);
    response ← request {| method := "PATCH"; url := url; req_headers := Some hs;
                          body := json_payload data |};
    mret (inr response)
  else if String.eqb method "DELETE" then
    hs ← attr "headers" (headers self);
    response ← request {| method := "DELETE"; url := url; req_headers := Some hs;
                          body := NoBody |};
    mret (inr response)
  else
    mret (inl (ValueError ("pylandax.custom_request: Invalid method: " +:+ method
                           +:+ ". Accepted methods: GET, POST, PATCH, DELETE"))).

(** [pylandax.Client(conf['url'], conf['credentials'])] in [main] of the
    task scripts, for the environment [env] that [load_dotenv] leaves. *)
Definition task_client (module_dir : Path) (env : gmap string string) : M Client :=
  __init__ module_dir (format_env (getenv env "LANDAX_URL")) (conf_credentials env) "v20".

(** *** Vocabulary of the further statements *)

(** The write requests of [post_data] and [patch_data]. *)
Definition json_request (verb u : string) (hs : dict) (data : pyobj) : Request :=
  {| method := verb; url := u;
     req_headers := Some (dict_set (KStr "Content-Type") (PStr "application/json") hs);
     body := json_payload data |}.

Definition accepted_method (m : string) : Prop :=
  m = "GET" \/ m = "POST" \/ m = "PATCH" \/ m = "DELETE".

(** The document link [upload_linked_document] builds. *)
Definition link_of (field : string) (linked_object_id : Z) (folder_id : pyobj) : dict :=
  match folder_id with
  | PNone => [(KStr field, PInt linked_object_id)]
  | _ => [(KStr field, PInt linked_object_id); (KStr "FolderId", folder_id)]
  end.

(** The warnings of [upload_linked_document] for the options [d]. *)
Definition linked_upload_warnings (d : dict) : list output :=
  (if dict_mem (KStr "FolderId") d then
     [LogWarning "Warning: pylandax.upload_linked_document does not support FolderId parameter in document_options. It will be ignored."]
   else []) ++
  (if dict_mem (KStr "ModuleId") d then
     [LogWarning "Warning: pylandax.upload_linked_document does not support ModuleId parameter in document_options. It will be ignored."]
   else []).

(** The warnings of [upload_document] for the options [d]. *)
Definition upload_warnings (d : dict) : list output :=
  (if dict_mem (KStr "FolderId") d then
     [LogWarning "Warning: pylandax.upload_document does not support FolderId parameter in document_options. It will be ignored."]
   else []) ++
  (if dict_mem (KStr "ModuleId") d then
     [LogWarning "Warning: pylandax.upload_document does not support ModuleId parameter in document_options. It will be ignored. To upload a document linked to an object in a module, use pylandax.upload_linked_document instead."]
   else []).

End MoreMethods.

(** A client as the constructor leaves it when a credential is missing. *)
Module Stranger.

Definition client : Client :=
  {| script_dir := Mock.module_dir; username := None; password := None;
     client_id := None; client_secret := None; base_url := None;
     api_url := None; headers := None; oauth_token := None |}.

End Stranger.

(** Further fixtures: options that carry entries the upload methods
    control themselves, and a token answer with a number for a token. *)
Module Fixture.

Definition stale_options : dict :=
  [(KStr "FolderId", PInt 99); (KStr "Number", PStr "D-1"); (KStr "ModuleId", PInt 1)].

Definition numeric_token : pyobj :=
  PDict [(KStr "access_token", PInt 42)].

(** The test double, with a decoder that knows this answer too. *)
Definition runtime : Runtime :=
  {| remote := Mock.answers;
     send := Mock.next_answer;
     urlencode := Mock.plain_urlencode;
     json_dumps := Mock.dumps;
     json_loads := fun s =>
       List.find (fun v => String.eqb (Mock.dumps v) s) (numeric_token :: Mock.fixtures);
     str_bytes := fun s => "b'" +:+ s +:+ "'" |}.

Definition world (q : Mock.answers) : @World runtime :=
  {| net := (q : @remote runtime); sent := []; console := []; store := ∅; disk := ∅ |}.

End Fixture.

(** A remote end that answers every request with the same page, which
    names a next one. *)
Module Carousel.

Definition runtime : Runtime :=
  {| remote := unit;
     send := fun _ _ => (Mock.ok Mock.page_one, tt);
     urlencode := Mock.plain_urlencode;
     json_dumps := Mock.dumps;
     json_loads := Mock.loads;
     str_bytes := fun s => "b'" +:+ s +:+ "'" |}.

Definition world : @World runtime :=
  {| net := (tt : @remote runtime); sent := []; console := []; store := ∅; disk := ∅ |}.

End Carousel.

(* ===================================================================== *)
(** ** Running a method *)
(* ===================================================================== *)

(** *** Dictionaries *)

Lemma key_eqb_norm (a b : hkey) : key_eqb a b = true <-> key_norm a = key_norm b.
Proof.
  destruct a as [|[|]| |], b as [|[|]| |];
    cbv beta iota delta [key_eqb key_num key_norm];
    rewrite ?Z.eqb_eq, ?String.eqb_eq; split; intros H;
    try reflexivity; try discriminate; try congruence; try (inversion H; lia).
Qed.

Lemma key_eqb_refl (a : hkey) : key_eqb a a = true.
Proof. apply key_eqb_norm. reflexivity. Qed.

Lemma key_eqb_sym (a b : hkey) : key_eqb a b = key_eqb b a.
Proof.
  destruct (key_eqb a b) eqn:E1, (key_eqb b a) eqn:E2; try reflexivity.
  - apply key_eqb_norm in E1. symmetry in E1. apply key_eqb_norm in E1. congruence.
  - apply key_eqb_norm in E2. symmetry in E2. apply key_eqb_norm in E2. congruence.
Qed.

Lemma key_eqb_congr (a b c : hkey) :
  key_eqb a b = true -> key_eqb a c = key_eqb b c.
Proof.
  intros Hab. apply key_eqb_norm in Hab.
  destruct (key_eqb a c) eqn:E1, (key_eqb b c) eqn:E2; try reflexivity.
  - apply key_eqb_norm in E1. rewrite Hab in E1. apply key_eqb_norm in E1. congruence.
  - apply key_eqb_norm in E2. rewrite <- Hab in E2. apply key_eqb_norm in E2. congruence.
Qed.

Lemma key_eqb_trans (a b c : hkey) :
  key_eqb a b = true -> key_eqb b c = true -> key_eqb a c = true.
Proof. intros Hab Hbc. rewrite (key_eqb_congr _ _ c Hab). exact Hbc. Qed.

Lemma dict_get_set (k k' : hkey) (v : pyobj) (d : dict) :
  dict_get k (dict_set k' v d) = if key_eqb k' k then Some v else dict_get k d.
Proof.
  induction d as [|[k0 v0] d IH]; cbn.
  - reflexivity.
  - destruct (key_eqb k0 k') eqn:E0; cbn.
    + rewrite (key_eqb_congr _ _ k E0). destruct (key_eqb k' k); reflexivity.
    + rewrite IH. destruct (key_eqb k0 k) eqn:E1; [|reflexivity].
      destruct (key_eqb k' k) eqn:E2; [|reflexivity].
      rewrite key_eqb_sym in E2.
      rewrite (key_eqb_trans _ _ _ E1 E2) in E0. discriminate.
Qed.

Lemma dict_get_del (k k' : hkey) (d : dict) :
  dict_get k (dict_del k' d) = if key_eqb k' k then None else dict_get k d.
Proof.
  unfold dict_del.
  induction d as [|[k0 v0] d IH]; cbn [List.filter dict_get fst].
  - destruct (key_eqb k' k); reflexivity.
  - destruct (key_eqb k0 k') eqn:E0; cbn [negb dict_get].
    + rewrite IH, (key_eqb_congr _ _ k E0).
      destruct (key_eqb k' k); reflexivity.
    + rewrite IH. destruct (key_eqb k0 k) eqn:E1; [|reflexivity].
      destruct (key_eqb k' k) eqn:E2; [|reflexivity].
      rewrite key_eqb_sym in E2.
      rewrite (key_eqb_trans _ _ _ E1 E2) in E0. discriminate.
Qed.

Lemma dict_mem_set (k k' : hkey) (v : pyobj) (d : dict) :
  dict_mem k (dict_set k' v d) = key_eqb k' k || dict_mem k d.
Proof. unfold dict_mem. rewrite dict_get_set. destruct (key_eqb k' k); reflexivity. Qed.

Lemma dict_mem_del (k k' : hkey) (d : dict) :
  dict_mem k (dict_del k' d) = negb (key_eqb k' k) && dict_mem k d.
Proof. unfold dict_mem. rewrite dict_get_del. destruct (key_eqb k' k); reflexivity. Qed.

Lemma dict_del_absent (k : hkey) (d : dict) :
  dict_mem k d = false -> dict_del k d = d.
Proof.
  unfold dict_mem, dict_del.
  induction d as [|[k0 v0] d IH]; cbn [List.filter dict_get fst]; intros H.
  - reflexivity.
  - destruct (key_eqb k0 k); [discriminate|]. cbn [negb]. rewrite IH; [reflexivity | exact H].
Qed.

Lemma strip_drops_top (d : dict) : dict_mem (KStr "$top") (strip d) = false.
Proof. unfold strip. rewrite !dict_mem_del. reflexivity. Qed.

Lemma strip_drops_skip (d : dict) : dict_mem (KStr "$skip") (strip d) = false.
Proof. unfold strip. rewrite !dict_mem_del. reflexivity. Qed.

Lemma strip_strip (d : dict) : strip (strip d) = strip d.
Proof.
  unfold strip at 1.
  rewrite (dict_del_absent (KStr "$top") (strip d)) by apply strip_drops_top.
  apply dict_del_absent, strip_drops_skip.
Qed.

Lemma pagination_warnings_strip (d : dict) : pagination_warnings (strip d) = [].
Proof.
  unfold pagination_warnings. rewrite strip_drops_top, strip_drops_skip. reflexivity.
Qed.

Lemma find_snoc {A} (p : A -> bool) (l : list A) (x : A) :
  List.find p (l ++ [x]) =
    match List.find p l with
    | Some y => Some y
    | None => if p x then Some x else None
    end.
Proof.
  induction l as [|y l IH]; cbn; [reflexivity|].
  destruct (p y); [reflexivity | exact IH].
Qed.

Section Proofs.
Context `{RT : Runtime}.

Arguments generate_url : simpl never.
Arguments String.append : simpl never.

Ltac unfold_M :=
  unfold request_raw, requests_get, contains, delitem, setitem, update,
    or_new_dict, skip, lift, attr, json in *;
  unfold alloc, deref, put, emit, request, path_exists, read_file, raise in *;
  unfold mbind, M_bind, mret, M_ret in *.

Lemma bind_returns {A B} (m : M A) (f : A -> M B) (w w' : World) (a : A) :
  m w = (Returns a, w') -> (m ≫= f) w = f a w'.
Proof. intros H. unfold mbind, M_bind. rewrite H. reflexivity. Qed.

Lemma log_more_nil (w : World) : log_more w [] = w.
Proof. destruct w. unfold log_more. cbn. rewrite app_nil_r. reflexivity. Qed.

Lemma log_more_more (w : World) (a b : list output) :
  log_more (log_more w a) b = log_more w (a ++ b).
Proof. unfold log_more. cbn. rewrite app_assoc. reflexivity. Qed.

Lemma emit_run (o : output) (w : World) : emit o w = (Returns tt, log_more w [o]).
Proof. reflexivity. Qed.

(** A warning that is printed under a condition. *)
Lemma emit_when (b : bool) (o : output) (w : World) :
  (if b then emit o else skip) w = (Returns tt, log_more w (if b then [o] else [])).
Proof. destruct b; [reflexivity|]. rewrite log_more_nil. reflexivity. Qed.

Lemma attr_run {A} (name : string) (field : option A) (a : A) (w : World) :
  field = Some a -> attr name field w = (Returns a, w).
Proof. intros ->. reflexivity. Qed.

Lemma deref_run (l : loc) (d : dict) (w : World) :
  store w !! l = Some d -> deref l w = (Returns d, w).
Proof. intros H. unfold deref. rewrite H. reflexivity. Qed.

Lemma contains_run (l : loc) (k : string) (d : dict) (w : World) :
  store w !! l = Some d -> contains l k w = (Returns (dict_mem (KStr k) d), w).
Proof.
  intros H. unfold contains. rewrite (bind_returns _ _ _ _ _ (deref_run _ _ _ H)).
  reflexivity.
Qed.

(** The world after [d] is stored at [l]. *)
Lemma update_run (l : loc) (f : dict -> dict) (d : dict) (w : World) :
  store w !! l = Some d ->
  update l f w =
    (Returns tt,
     {| net := net w; sent := sent w; console := console w;
        store := <[l := f d]> (store w); disk := disk w |}).
Proof.
  intros H. unfold update. rewrite (bind_returns _ _ _ _ _ (deref_run _ _ _ H)).
  reflexivity.
Qed.

(** An optional dictionary argument resolves to a location that holds
    the dictionary; nothing but the store can have changed. *)
Lemma or_new_dict_run (arg : option loc) (d : dict) (w : World) :
  arg_dict w arg d ->
  exists l w1,
    or_new_dict arg w = (Returns l, w1) /\ store w1 !! l = Some d /\
    net w1 = net w /\ sent w1 = sent w /\ console w1 = console w /\
    disk w1 = disk w.
Proof.
  intros H. destruct arg as [l|]; cbn in H.
  - exists l, w. repeat split; assumption.
  - subst d. eexists _, _. split; [reflexivity|]. cbn.
    rewrite lookup_insert_eq. repeat split; reflexivity.
Qed.

Lemma read_file_run (p : Path) (c : string) (w : World) :
  disk w !! path_str p = Some (RegularFile c) -> read_file p w = (Returns c, w).
Proof. intros H. unfold read_file. rewrite H. reflexivity. Qed.

Ltac run_with lem := erewrite bind_returns; [ | lem ].

(** C2. When the server answers a single-record fetch with status 404,
    [get_single_data] returns [None] and raises nothing; with any other
    status its outcome is that of [response.json()], the parsed body. *)
Theorem get_single_data_not_found_is_none
    (self : Client) (data_model : string) (data_id : Z) (params : option loc)
    (w : World) (api : string) (hs d : dict) (resp : Response) (net' : remote) :
  api_url self = Some api ->
  headers self = Some hs ->
  arg_dict w params d ->
  send (get_request
          (generate_url (api +:+ data_model +:+ "(" +:+ pretty data_id +:+ ")") d) hs)
       (net w) = (inr resp, net') ->
  (status_code resp = 404 ->
   fst (get_single_data self data_model data_id params w) = Returns PNone) /\
  (status_code resp <> 404 ->
   fst (get_single_data self data_model data_id params w) =
     match json_loads (content resp) with
     | Some body => Returns body
     | None => Raises JSONDecodeError
     end).
Proof.
  intros Hapi Hhs Harg Hsend.
  unfold get_single_data, get_request in *.
  destruct params as [l|]; simpl in Harg; unfold_M; cbn.
  - rewrite Hapi, Harg, Hhs, Hsend. cbn.
    split; intros Hst.
    + rewrite Hst. reflexivity.
    + apply Z.eqb_neq in Hst. rewrite Hst.
      destruct (json_loads (content resp)); reflexivity.
  - subst d. rewrite Hapi. cbn. rewrite lookup_insert_eq. cbn.
    rewrite Hhs. cbn. rewrite Hsend. cbn.
    split; intros Hst.
    + rewrite Hst. reflexivity.
    + apply Z.eqb_neq in Hst. rewrite Hst.
      destruct (json_loads (content resp)); reflexivity.
Qed.

(** C5. Once the server has answered, [get_document_content] raises
    [LandaxDataException] exactly when the status is not 200, and on 200
    it returns the content of the response; a 202 raises as well. *)
Theorem get_document_content_requires_200
    (self : Client) (document_id : Z) (as_pdf : bool) (w : World)
    (api : string) (hs : dict) (resp : Response) (net' : remote) :
  api_url self = Some api ->
  headers self = Some hs ->
  send (get_request (content_url api document_id as_pdf) hs) (net w)
    = (inr resp, net') ->
  let result := fst (get_document_content self document_id as_pdf w) in
  ((exists msg, result = Raises (LandaxDataException msg)) <-> status_code resp <> 200) /\
  (status_code resp = 200 -> result = Returns (content resp)) /\
  (status_code resp = 202 -> exists msg, result = Raises (LandaxDataException msg)).
Proof.
  intros Hapi Hhs Hsend result. subst result.
  unfold get_document_content, get_request, content_url in *.
  unfold_M; cbn. rewrite Hapi. cbn. rewrite Hhs. cbn. rewrite Hsend. cbn.
  destruct (Z.eqb_spec (status_code resp) 200) as [E|E]; cbn.
  - split; [|split].
    + split; [intros [msg Hm]; discriminate | intros Hn; contradiction].
    + reflexivity.
    + intros H202. rewrite H202 in E. discriminate.
  - split; [|split].
    + split; [intros _; exact E | intros _; eexists; reflexivity].
    + intros H200. contradiction.
    + intros _. eexists; reflexivity.
Qed.

(** C7. With one of the four required credential fields missing, the
    constructor logs an error naming the first missing field and returns;
    it raises nothing, sends nothing, and the client it leaves behind has
    no token, no headers and no API URL. *)
Theorem init_missing_credential_logs_and_returns
    (module_dir : Path) (url : string) (credentials : dict) (version : string)
    (w : World) (key : string) :
  In key required_credentials ->
  dict_mem (KStr key) credentials = false ->
  exists self missing w',
    __init__ module_dir url credentials version w = (Returns self, w') /\
    In missing required_credentials /\
    dict_mem (KStr missing) credentials = false /\
    console w' = (console w ++ [LogError ("Error: credential field is required: " +:+ missing)])%list /\
    sent w' = sent w /\ net w' = net w /\
    oauth_token self = None /\ headers self = None /\ api_url self = None.
Proof.
  intros Hin Hmiss. unfold __init__.
  destruct (List.find _ required_credentials) as [missing|] eqn:Hfind.
  - apply List.find_some in Hfind as [Hreq Hneg].
    apply negb_true_iff in Hneg.
    eexists _, missing, _. unfold_M; cbn.
    split; [reflexivity|]. repeat split; assumption.
  - eapply List.find_none in Hfind; [|exact Hin].
    cbn in Hfind. rewrite Hmiss in Hfind. discriminate.
Qed.

(** [get_oauth_token] on a client whose credential attributes are set,
    once the token endpoint has answered. *)
Section TokenAnswered.
Variables (self : Client) (w : World) (base : string) (cid secret user pass : pyobj).
Variables (resp : Response) (net' : remote).
Hypothesis Hbase : base_url self = Some base.
Hypothesis Hcid : client_id self = Some cid.
Hypothesis Hsecret : client_secret self = Some secret.
Hypothesis Huser : username self = Some user.
Hypothesis Hpass : password self = Some pass.
Hypothesis Hsend : send (token_request base cid secret user pass) (net w) = (inr resp, net').

Lemma get_oauth_token_non_200 :
  status_code resp <> 200 ->
  exists msg, fst (get_oauth_token self w) = Raises (LandaxAuthException msg).
Proof.
  intros Hst. unfold get_oauth_token, token_request in *. unfold_M; cbn.
  rewrite Hbase; cbn. rewrite Hcid; cbn. rewrite Hsecret; cbn.
  rewrite Huser; cbn. rewrite Hpass; cbn. rewrite Hsend; cbn.
  apply Z.eqb_neq in Hst. rewrite Hst. cbn. eexists; reflexivity.
Qed.

Lemma get_oauth_token_200 :
  status_code resp = 200 ->
  fst (get_oauth_token self w) =
    match json_loads (content resp) with
    | None => Raises JSONDecodeError
    | Some data =>
        match str_in "access_token" data with
        | inl e => Raises e
        | inr false =>
            Raises (LandaxAuthException
                      ("Landax response was non-json. Body: " +:+ str_bytes (content resp)))
        | inr true =>
            match getitem_str data "access_token" with
            | inl e => Raises e
            | inr token => Returns token
            end
        end
    end.
Proof.
  intros Hst. unfold get_oauth_token, token_request in *. unfold_M; cbn.
  rewrite Hbase; cbn. rewrite Hcid; cbn. rewrite Hsecret; cbn.
  rewrite Huser; cbn. rewrite Hpass; cbn. rewrite Hsend; cbn.
  rewrite Hst. cbn.
  destruct (json_loads (content resp)) as [data|]; cbn; [|reflexivity].
  destruct (str_in "access_token" data) as [e|[|]]; cbn; try reflexivity.
  destruct (getitem_str data "access_token"); reflexivity.
Qed.

(** For a body that is a JSON object the authentication error is raised
    exactly when the status is not 200 or the field is missing. *)
Lemma get_oauth_token_object_body (fields : dict) :
  json_loads (content resp) = Some (PDict fields) ->
  ((exists msg, fst (get_oauth_token self w) = Raises (LandaxAuthException msg)) <->
   status_code resp <> 200 \/ dict_get (KStr "access_token") fields = None) /\
  (forall token, status_code resp = 200 ->
     dict_get (KStr "access_token") fields = Some token ->
     fst (get_oauth_token self w) = Returns token).
Proof.
  intros Hbody.
  destruct (Z.eq_dec (status_code resp) 200) as [E|E].
  - rewrite (get_oauth_token_200 E), Hbody. cbn. unfold dict_mem.
    destruct (dict_get (KStr "access_token") fields) as [token|] eqn:Hget.
    + split.
      * split; [intros [msg Hm]; discriminate | intros [Hn|Hn]; [contradiction|discriminate]].
      * intros token' _ Ht. congruence.
    + split.
      * split; [intros _; right; reflexivity | intros _; eexists; reflexivity].
      * intros token' _ Ht. discriminate.
  - split.
    + split; [intros _; left; exact E | intros _; exact (get_oauth_token_non_200 E)].
    + intros token Hst. contradiction.
Qed.

Lemma get_oauth_token_world :
  snd (get_oauth_token self w) =
    {| net := net'; sent := sent w ++ [token_request base cid secret user pass];
       console := console w; store := store w; disk := disk w |}.
Proof.
  unfold get_oauth_token, token_request in *. unfold_M; cbn.
  rewrite Hbase; cbn. rewrite Hcid; cbn. rewrite Hsecret; cbn.
  rewrite Huser; cbn. rewrite Hpass; cbn. rewrite Hsend; cbn.
  destruct (status_code resp =? 200)%Z; cbn; [|reflexivity].
  destruct (json_loads (content resp)) as [data|]; cbn; [|reflexivity].
  destruct (str_in "access_token" data) as [e|[|]]; cbn; try reflexivity.
  destruct (getitem_str data "access_token"); reflexivity.
Qed.

End TokenAnswered.

(** With the four credentials present and a token endpoint that answers
    200 with a string under ['access_token'], the constructor sends the
    one token request, keeps the token and sets the [Authorization]
    header to ['Bearer '] followed by it. *)
Lemma init_stores_bearer_token
    (module_dir : Path) (url : string) (credentials : dict) (version : string)
    (w : World) (user pass cid secret : pyobj) (resp : Response) (net' : remote)
    (fields : dict) (token : string) :
  dict_get (KStr "username") credentials = Some user ->
  dict_get (KStr "password") credentials = Some pass ->
  dict_get (KStr "client_id") credentials = Some cid ->
  dict_get (KStr "client_secret") credentials = Some secret ->
  send (token_request ("https://" +:+ url +:+ "/") cid secret user pass) (net w)
    = (inr resp, net') ->
  status_code resp = 200 ->
  json_loads (content resp) = Some (PDict fields) ->
  dict_get (KStr "access_token") fields = Some (PStr token) ->
  exists self w',
    __init__ module_dir url credentials version w = (Returns self, w') /\
    oauth_token self = Some (PStr token) /\
    headers self = Some [(KStr "Authorization", PStr ("Bearer " +:+ token))] /\
    sent w' = (sent w ++ [token_request ("https://" +:+ url +:+ "/") cid secret user pass])%list.
Proof.
  intros Huser Hpass Hcid Hsecret Hsend Hst Hbody Htoken.
  unfold __init__, required_credentials. cbn [List.find]. unfold dict_mem.
  rewrite Huser, Hpass, Hcid, Hsecret. cbn [negb getitem_str].
  rewrite Huser, Hpass, Hcid, Hsecret.
  do 4 (run_with ltac:(reflexivity)).
  set (self0 := Build_Client _ _ _ _ _ _ _ _ _).
  assert (Hfst := get_oauth_token_200 self0 w _ cid secret user pass resp net'
                    eq_refl eq_refl eq_refl eq_refl eq_refl Hsend Hst).
  assert (Hsnd := get_oauth_token_world self0 w _ cid secret user pass resp net'
                    eq_refl eq_refl eq_refl eq_refl eq_refl Hsend).
  rewrite Hbody in Hfst. cbn [str_in getitem_str] in Hfst. unfold dict_mem in Hfst.
  rewrite Htoken in Hfst.
  destruct (get_oauth_token self0 w) as [o w1] eqn:Hrun. cbn in Hfst, Hsnd. subst o w1.
  run_with ltac:(exact Hrun).
  cbn [py_add].
  run_with ltac:(reflexivity).
  eexists _, _. split; [reflexivity|]. cbn. repeat split.
Qed.


(** C6. A token endpoint that answers 200 with a body that is not JSON
    makes [get_oauth_token] raise the decoder's error at
    [result.json()]: the check that raises [LandaxAuthException] with
    the message "Landax response was non-json" is never reached. *)
Theorem get_oauth_token_non_json_body_escapes
    (self : Client) (w : World) (base : string) (cid secret user pass : pyobj)
    (resp : Response) (net' : remote) :
  base_url self = Some base ->
  client_id self = Some cid ->
  client_secret self = Some secret ->
  username self = Some user ->
  password self = Some pass ->
  send (token_request base cid secret user pass) (net w) = (inr resp, net') ->
  status_code resp = 200 ->
  json_loads (content resp) = None ->
  fst (get_oauth_token self w) = Raises JSONDecodeError /\
  forall msg, fst (get_oauth_token self w) <> Raises (LandaxAuthException msg).
Proof.
  intros Hbase Hcid Hsecret Huser Hpass Hsend Hst Hbody.
  rewrite (get_oauth_token_200 self w base cid secret user pass resp net'
             Hbase Hcid Hsecret Huser Hpass Hsend Hst), Hbody.
  split; [reflexivity | intros msg; discriminate].
Qed.

Lemma list_to_dict_from_spec (metakey : string) (list_in : list pyobj) :
  (forall record, In record list_in -> is_Some (record_key metakey record)) ->
  forall (acc : dict) (w : World),
  exists d warnings,
    list_to_dict_from acc list_in metakey w = (Returns d, log_more w warnings) /\
    Forall overwrite_warning warnings /\
    forall k, dict_get k d =
              match last_with metakey k list_in with
              | Some record => Some record
              | None => dict_get k acc
              end.
Proof.
  induction list_in as [|record rest IH]; intros Hkeys acc w.
  - exists acc, []. rewrite log_more_nil.
    split; [reflexivity|]. split; [constructor|]. intros k. reflexivity.
  - destruct (Hkeys record (or_introl eq_refl)) as [k0 Hk0].
    assert (Hrest : forall r, In r rest -> is_Some (record_key metakey r)).
    { intros r Hr. apply Hkeys. right. exact Hr. }
    unfold record_key in Hk0.
    destruct (getitem_str record metakey) as [e|v] eqn:Hitem; [discriminate|].
    cbn [list_to_dict_from]. rewrite Hitem.
    assert (Hlookup : forall d k,
      (forall k, dict_get k d =
         match last_with metakey k rest with
         | Some r => Some r
         | None => dict_get k (dict_set k0 record acc)
         end) ->
      dict_get k d =
        match last_with metakey k (record :: rest) with
        | Some r => Some r
        | None => dict_get k acc
        end).
    { intros d k Hd. rewrite Hd. unfold last_with. cbn [rev]. rewrite find_snoc.
      destruct (List.find (filed_under metakey k) (rev rest)); [reflexivity|].
      rewrite dict_get_set. unfold filed_under, record_key. rewrite Hitem, Hk0.
      destruct (key_eqb k0 k); reflexivity. }
    unfold_M; cbn. rewrite Hk0.
    destruct (dict_mem k0 acc) eqn:Hmem; cbn.
    + destruct (IH Hrest (dict_set k0 record acc)
                  (log_more w [Print ("Warning: " +:+ str_key k0 +:+ " already present, overwriting")]))
        as (d & warnings & Hrun & Hwarn & Hd).
      exists d, (Print ("Warning: " +:+ str_key k0 +:+ " already present, overwriting") :: warnings).
      unfold log_more in Hrun at 1. rewrite Hrun, log_more_more.
      split; [reflexivity|]. split.
      * constructor; [exists k0; reflexivity | exact Hwarn].
      * intros k. apply Hlookup, Hd.
    + destruct (IH Hrest (dict_set k0 record acc) w) as (d & warnings & Hrun & Hwarn & Hd).
      exists d, warnings. rewrite Hrun.
      split; [reflexivity|]. split; [exact Hwarn|].
      intros k. apply Hlookup, Hd.
Qed.

(** C8. When every record has a hashable value in the key field,
    [list_to_dict] returns a dictionary in which each key maps to the
    whole record of the last entry of the list carrying that key (and a
    key nobody carries maps to nothing); an overwrite only prints a
    warning. *)
Theorem list_to_dict_last_occurrence_wins
    (list_in : list pyobj) (metakey : string) (w : World) :
  (forall record, In record list_in -> is_Some (record_key metakey record)) ->
  exists d warnings,
    list_to_dict list_in metakey w = (Returns d, log_more w warnings) /\
    Forall overwrite_warning warnings /\
    forall k, dict_get k d = last_with metakey k list_in.
Proof.
  intros Hkeys.
  destruct (list_to_dict_from_spec metakey list_in Hkeys [] w)
    as (d & warnings & Hrun & Hwarn & Hd).
  exists d, warnings. split; [exact Hrun|]. split; [exact Hwarn|].
  intros k. rewrite Hd. destruct (last_with metakey k list_in); reflexivity.
Qed.

(** C4. With the module table on disk, a module name that the table
    does not list, or whose numeric id has no foreign-key field in
    [id_key_mapping], makes [upload_linked_document] log an error and
    return [None]; no request is sent. *)
Theorem upload_linked_document_unlinkable_module
    (self : Client) (filedata filename : string) (folder_id : pyobj)
    (module_name : string) (linked_object_id : Z) (document_options : option loc)
    (w : World) (options : dict) (table : string) (modules : dict) :
  arg_dict w document_options options ->
  disk w !! path_str (path_child (script_dir self) "modules.json")
    = Some (RegularFile table) ->
  json_loads table = Some (PDict modules) ->
  (dict_get (KStr module_name) modules = None \/
   exists id, dict_get (KStr module_name) modules = Some (PInt id) /\
              dict_get (KInt id) id_key_mapping = None) ->
  exists w' warnings msg,
    upload_linked_document self filedata filename folder_id module_name
      linked_object_id document_options w = (Returns None, w') /\
    sent w' = sent w /\ net w' = net w /\
    console w' = (console w ++ warnings ++ [LogError msg])%list.
Proof.
  intros Harg Hdisk Hjson Hmodule.
  destruct (or_new_dict_run _ _ _ Harg) as (l & w1 & Hnew & Hl & Hnet & Hsent & Hcon & Hdisk1).
  unfold upload_linked_document.
  run_with ltac:(exact Hnew).
  run_with ltac:(apply contains_run; exact Hl).
  run_with ltac:(apply emit_when).
  run_with ltac:(apply contains_run; exact Hl).
  run_with ltac:(apply emit_when).
  rewrite log_more_more.
  run_with ltac:(apply read_file_run; cbn; rewrite Hdisk1; exact Hdisk).
  rewrite Hjson.
  run_with ltac:(reflexivity).
  cbn [str_in lift]. unfold dict_mem.
  destruct Hmodule as [Hnone | (id & Hid & Hmap)].
  - rewrite Hnone.
    run_with ltac:(reflexivity).
    cbn [negb].
    run_with ltac:(apply emit_run).
    rewrite log_more_more.
    eexists _, _, _. split; [reflexivity|]. cbn.
    rewrite Hnet, Hsent, Hcon. repeat split; reflexivity.
  - rewrite Hid.
    run_with ltac:(reflexivity).
    cbn [negb getitem_str]. rewrite Hid.
    run_with ltac:(reflexivity).
    cbn [as_key]. rewrite Hmap.
    run_with ltac:(apply emit_run).
    rewrite log_more_more.
    eexists _, _, _. split; [reflexivity|]. cbn.
    rewrite Hnet, Hsent, Hcon. repeat split; reflexivity.
Qed.


(** *** [get_all_data]: preparing the parameters *)

Lemma with_dict_id (w : World) (l : loc) (d : dict) :
  store w !! l = Some d -> with_dict w l d = w.
Proof.
  intros H. destruct w as [n s c st dk]. unfold with_dict. cbn in *.
  rewrite (insert_id st l d H). reflexivity.
Qed.

Lemma with_dict_lookup (w : World) (l : loc) (d : dict) (lines : list output) :
  store (log_more (with_dict w l d) lines) !! l = Some d.
Proof. cbn. apply lookup_insert_eq. Qed.

Lemma with_dict_again (w : World) (l : loc) (d d' : dict) (a b : list output) :
  log_more (with_dict (log_more (with_dict w l d) a) l d') b
  = log_more (with_dict w l d') (a ++ b).
Proof.
  unfold log_more, with_dict. cbn. rewrite insert_insert_eq, app_assoc. reflexivity.
Qed.

(** [if k in params: print(...); del params[k]] *)
Lemma drop_param_run (l : loc) (k : string) (o : output) (d : dict) (w : World) :
  store w !! l = Some d ->
  (if dict_mem (KStr k) d then emit o;; delitem l k else skip) w
  = (Returns tt,
     log_more (with_dict w l (dict_del (KStr k) d))
              (if dict_mem (KStr k) d then [o] else [])).
Proof.
  intros H. destruct (dict_mem (KStr k) d) eqn:Hmem.
  - rewrite (bind_returns _ _ _ _ _ (emit_run o w)).
    unfold delitem. rewrite (update_run l _ d); [reflexivity | exact H].
  - rewrite (dict_del_absent _ _ Hmem), log_more_nil, (with_dict_id _ _ _ H).
    reflexivity.
Qed.

(** [if select is not None: params['$select'] = ','.join(select)] *)
Lemma merge_select_run (l : loc) (sel : option (list string)) (d : dict) (w : World) :
  store w !! l = Some d ->
  match sel with
  | Some fields => setitem l "$select" (PStr (String.concat "," fields))
  | None => skip
  end w = (Returns tt, with_dict w l (with_select sel d)).
Proof.
  intros H. destruct sel as [fields|]; cbn [with_select].
  - unfold setitem. rewrite (update_run l _ d); [reflexivity | exact H].
  - rewrite (with_dict_id _ _ _ H). reflexivity.
Qed.

(** Up to the first request [get_all_data] only rewrites the dictionary
    and prints the warnings. *)
Lemma get_all_data_prepares (fuel : nat) (self : Client) (data_model : string)
    (params : option loc) (select : option (list string)) (d : dict) (w : World) :
  arg_dict w params d ->
  exists l w1,
    or_new_dict params w = (Returns l, w1) /\ store w1 !! l = Some d /\
    net w1 = net w /\ sent w1 = sent w /\ console w1 = console w /\
    disk w1 = disk w /\
    get_all_data fuel self data_model params select w
    = fetch_pages fuel self data_model l
        (log_more (with_dict w1 l (prepared select d)) (pagination_warnings d)).
Proof.
  intros Harg.
  destruct (or_new_dict_run _ _ _ Harg) as (l & w1 & Hnew & Hl & Hnet & Hsent & Hcon & Hdisk).
  exists l, w1. repeat (split; [assumption|]).
  unfold get_all_data.
  run_with ltac:(exact Hnew).
  run_with ltac:(apply contains_run; exact Hl).
  run_with ltac:(apply drop_param_run; exact Hl).
  run_with ltac:(apply contains_run; apply with_dict_lookup).
  run_with ltac:(apply drop_param_run; apply with_dict_lookup).
  rewrite with_dict_again.
  run_with ltac:(apply merge_select_run; apply with_dict_lookup).
  rewrite dict_mem_del. cbn [key_eqb String.eqb Ascii.eqb Bool.eqb negb andb].
  unfold fetch_pages, prepared, strip, pagination_warnings.
  f_equal. unfold log_more, with_dict. cbn. f_equal.
  apply insert_insert_eq.
Qed.

(** *** [get_all_data]: the requests leave the store and the console alone *)

Lemma wire_only_ret {A} (a : A) : wire_only (mret a).
Proof. intros w. repeat split. Qed.

Lemma wire_only_raise {A} (e : exn) : wire_only (@raise _ A e).
Proof. intros w. repeat split. Qed.

Lemma wire_only_out_of_fuel {A} : wire_only (@out_of_fuel _ A).
Proof. intros w. repeat split. Qed.

Lemma wire_only_lift {A} (r : exn + A) : wire_only (lift r).
Proof. destruct r; [apply wire_only_raise | apply wire_only_ret]. Qed.

Lemma wire_only_attr {A} (name : string) (field : option A) : wire_only (attr name field).
Proof. destruct field; [apply wire_only_ret | apply wire_only_raise]. Qed.

Lemma wire_only_json (r : Response) : wire_only (json r).
Proof.
  unfold json. destruct (json_loads (content r)); [apply wire_only_ret | apply wire_only_raise].
Qed.

Lemma wire_only_deref (l : loc) : wire_only (deref l).
Proof.
  intros w. unfold deref. cbn. destruct (store w !! l); repeat split.
Qed.

Lemma wire_only_request (r : Request) : wire_only (request r).
Proof.
  intros w. unfold request. cbn. destruct (send r (net w)) as [answer n1].
  repeat split.
Qed.

Lemma wire_only_bind {A B} (m : M A) (f : A -> M B) :
  wire_only m -> (forall a, wire_only (f a)) -> wire_only (m ≫= f).
Proof.
  intros Hm Hf w. destruct (Hm w) as (Hst & Hdk & Hcon & Hblind).
  unfold mbind, M_bind.
  assert (Hc : forall c, m (with_console c w) = (fst (m w), with_console c (snd (m w))))
    by exact Hblind.
  destruct (m w) as [[a|e|] w1] eqn:Hrun; cbn in *.
  - destruct (Hf a w1) as (Hst1 & Hdk1 & Hcon1 & Hblind1).
    repeat split; try congruence.
    intros c. rewrite Hc. apply Hblind1.
  - repeat split; try assumption. intros c. rewrite Hc. reflexivity.
  - repeat split; try assumption. intros c. rewrite Hc. reflexivity.
Qed.

Lemma wire_only_requests_get (u : pyobj) (hs : dict) : wire_only (requests_get u hs).
Proof.
  destruct u; cbn; try apply wire_only_raise. apply wire_only_request.
Qed.

Lemma wire_only_request_raw (self : Client) (u : pyobj) : wire_only (request_raw self u).
Proof.
  unfold request_raw. apply wire_only_bind; [apply wire_only_attr|].
  intros hs. apply wire_only_requests_get.
Qed.

Lemma wire_only_follow_next_links (fuel : nat) (self : Client) :
  forall (response : Response) (data : pyobj),
    wire_only (follow_next_links fuel self response data).
Proof.
  induction fuel as [|fuel IH]; intros response data; cbn [follow_next_links].
  - apply wire_only_bind; [apply wire_only_json|]. intros body.
    apply wire_only_bind; [apply wire_only_lift|]. intros [|].
    + apply wire_only_out_of_fuel.
    + apply wire_only_ret.
  - apply wire_only_bind; [apply wire_only_json|]. intros body.
    apply wire_only_bind; [apply wire_only_lift|]. intros [|].
    + apply wire_only_bind; [apply wire_only_json|]. intros body1.
      apply wire_only_bind; [apply wire_only_lift|]. intros new_url.
      apply wire_only_bind; [apply wire_only_request_raw|]. intros response'.
      apply wire_only_bind; [apply wire_only_json|]. intros body'.
      apply wire_only_bind; [apply wire_only_lift|]. intros page.
      apply wire_only_bind; [apply wire_only_lift|]. intros data'.
      apply IH.
    + apply wire_only_ret.
Qed.

Lemma wire_only_fetch_pages (fuel : nat) (self : Client) (data_model : string) (l : loc) :
  wire_only (fetch_pages fuel self data_model l).
Proof.
  unfold fetch_pages.
  apply wire_only_bind; [apply wire_only_attr|]. intros api.
  apply wire_only_bind; [apply wire_only_deref|]. intros html_params.
  apply wire_only_bind; [apply wire_only_request_raw|]. intros response.
  apply wire_only_bind; [apply wire_only_json|]. intros body.
  apply wire_only_bind; [apply wire_only_lift|]. intros data.
  apply wire_only_follow_next_links.
Qed.

(** C10. [get_all_data] rewrites the dictionary the caller passed: after
    the call, however it ends, the caller's dictionary holds neither
    ['$top'] nor ['$skip'], and holds the joined [select] list under
    ['$select'] when one was given; it is the dictionary passed in with
    exactly these changes, and differs from it whenever it had one of
    the two pagination entries. *)
Theorem get_all_data_rewrites_callers_params
    (fuel : nat) (self : Client) (data_model : string) (l : loc)
    (sel : option (list string)) (d : dict) (w : World) :
  store w !! l = Some d ->
  let after := snd (get_all_data fuel self data_model (Some l) sel w) in
  store after !! l = Some (prepared sel d) /\
  dict_mem (KStr "$top") (prepared sel d) = false /\
  dict_mem (KStr "$skip") (prepared sel d) = false /\
  (forall fields, sel = Some fields ->
     dict_get (KStr "$select") (prepared sel d)
       = Some (PStr (String.concat "," fields))) /\
  (dict_mem (KStr "$top") d = true \/ dict_mem (KStr "$skip") d = true ->
   prepared sel d <> d).
Proof.
  intros Hl after.
  assert (Htop : dict_mem (KStr "$top") (prepared sel d) = false).
  { unfold prepared. destruct sel as [fields|]; cbn [with_select].
    - rewrite dict_mem_set, strip_drops_top. reflexivity.
    - apply strip_drops_top. }
  assert (Hskip : dict_mem (KStr "$skip") (prepared sel d) = false).
  { unfold prepared. destruct sel as [fields|]; cbn [with_select].
    - rewrite dict_mem_set, strip_drops_skip. reflexivity.
    - apply strip_drops_skip. }
  split; [|split; [exact Htop|split; [exact Hskip|split]]].
  - subst after.
    destruct (get_all_data_prepares fuel self data_model (Some l) sel d w Hl)
      as (l' & w1 & Hnew & _ & _ & _ & _ & _ & Hrun).
    cbn in Hnew. injection Hnew as <- <-.
    rewrite Hrun.
    destruct (wire_only_fetch_pages fuel self data_model l
                (log_more (with_dict w l (prepared sel d)) (pagination_warnings d)))
      as (Hst & _).
    rewrite Hst. apply with_dict_lookup.
  - intros fields ->. unfold prepared. cbn [with_select].
    rewrite dict_get_set, key_eqb_refl. reflexivity.
  - intros [H|H] Heq; rewrite Heq in *; congruence.
Qed.

(** C3. A call whose [params] carry ['$top'] or ['$skip'] and the same
    call on the same dictionary with those entries absent end alike:
    same result or exception, same requests sent, same state of the
    remote end, same dictionary left to the caller.  The two entries are
    dropped before the first request; the only difference is the warning
    printed for each entry that was present. *)
Theorem get_all_data_ignores_top_and_skip
    (fuel : nat) (self : Client) (data_model : string) (l : loc)
    (sel : option (list string)) (d : dict) (w : World) :
  store w !! l = Some d ->
  let given := get_all_data fuel self data_model (Some l) sel w in
  let absent := get_all_data fuel self data_model (Some l) sel (with_dict w l (strip d)) in
  fst given = fst absent /\
  sent (snd given) = sent (snd absent) /\
  net (snd given) = net (snd absent) /\
  store (snd given) = store (snd absent) /\
  console (snd given) = (console w ++ pagination_warnings d)%list /\
  console (snd absent) = console w.
Proof.
  intros Hl given absent. subst given absent.
  destruct (get_all_data_prepares fuel self data_model (Some l) sel d w Hl)
    as (l1 & w1 & Hnew1 & _ & _ & _ & _ & _ & Hrun1).
  cbn in Hnew1. injection Hnew1 as <- <-.
  assert (Hl2 : store (with_dict w l (strip d)) !! l = Some (strip d))
    by (cbn; apply lookup_insert_eq).
  destruct (get_all_data_prepares fuel self data_model (Some l) sel (strip d) _ Hl2)
    as (l2 & w2 & Hnew2 & _ & _ & _ & _ & _ & Hrun2).
  cbn in Hnew2. injection Hnew2 as <- <-.
  rewrite Hrun1, Hrun2. clear Hrun1 Hrun2.
  unfold prepared. rewrite strip_strip, pagination_warnings_strip, log_more_nil.
  replace (with_dict (with_dict w l (strip d)) l (with_select sel (strip d)))
    with (with_dict w l (with_select sel (strip d)))
    by (unfold with_dict; cbn; rewrite insert_insert_eq; reflexivity).
  set (W := with_dict w l (with_select sel (strip d))).
  destruct (wire_only_fetch_pages fuel self data_model l W) as (_ & _ & Hcon & Hblind).
  change (log_more W (pagination_warnings d))
    with (with_console (console W ++ pagination_warnings d) W).
  rewrite Hblind. cbn [fst snd with_console net sent store console].
  repeat split. exact Hcon.
Qed.

(** *** [get_all_data]: following the links *)

Lemma request_run (r : Request) (resp : Response) (n1 : remote) (w : World) :
  send r (net w) = (inr resp, n1) ->
  request r w =
    (Returns resp,
     {| net := n1; sent := sent w ++ [r]; console := console w;
        store := store w; disk := disk w |}).
Proof. intros H. unfold request. rewrite H. reflexivity. Qed.

Lemma request_raw_run (self : Client) (hs : dict) (u : string) (resp : Response)
    (n1 : remote) (w : World) :
  headers self = Some hs ->
  send (get_request u hs) (net w) = (inr resp, n1) ->
  request_raw self (PStr u) w =
    (Returns resp,
     {| net := n1; sent := sent w ++ [get_request u hs]; console := console w;
        store := store w; disk := disk w |}).
Proof.
  intros Hhs Hsend. unfold request_raw.
  run_with ltac:(apply attr_run; exact Hhs).
  cbn [requests_get]. apply request_run. exact Hsend.
Qed.

Lemma json_run (resp : Response) (body : pyobj) (w : World) :
  json_loads (content resp) = Some body -> json resp w = (Returns body, w).
Proof. intros H. unfold json. rewrite H. reflexivity. Qed.

Lemma lift_run {A} (r : exn + A) (a : A) (w : World) :
  r = inr a -> lift r w = (Returns a, w).
Proof. intros ->. reflexivity. Qed.

(** A body from which a key can be read contains that key. *)
Lemma getitem_str_in (o v : pyobj) (s : string) :
  getitem_str o s = inr v -> str_in s o = inr true.
Proof.
  destruct o; cbn; try discriminate. unfold dict_mem.
  destruct (dict_get (KStr s) d); [reflexivity | discriminate].
Qed.

Lemma serves_cons (hs : dict) (n : remote) (u : string) (page : list pyobj)
    (rest : list (list pyobj)) (n' : remote) :
  serves hs n u (page :: rest) n' <->
  exists resp n1 body,
    send (get_request u hs) n = (inr resp, n1) /\
    json_loads (content resp) = Some body /\
    getitem_str body "value" = inr (PList page) /\
    goes_on hs body n1 rest n'.
Proof. destruct rest; reflexivity. Qed.

Lemma follow_next_links_goes_on (self : Client) (hs : dict) :
  headers self = Some hs ->
  forall (rest : list (list pyobj)) (fuel : nat) (resp : Response) (body : pyobj)
         (w : World) (acc : list pyobj) (n' : remote),
    json_loads (content resp) = Some body ->
    goes_on hs body (net w) rest n' ->
    (length rest <= fuel)%nat ->
    exists w',
      follow_next_links fuel self resp (PList acc) w
        = (Returns (PList (acc ++ concat rest)), w') /\
      net w' = n' /\
      length (sent w') = (length (sent w) + length rest)%nat.
Proof.
  intros Hhs. induction rest as [|page rest IH];
    intros fuel resp body w acc n' Hbody Hgo Hfuel.
  - destruct Hgo as [Hlast Hnet]. exists w.
    split; [|split; [exact Hnet | cbn; lia]].
    cbn [concat]. rewrite app_nil_r.
    destruct fuel; cbn [follow_next_links];
      (run_with ltac:(apply json_run; exact Hbody));
      (run_with ltac:(apply lift_run; exact Hlast)); reflexivity.
  - destruct fuel as [|fuel]; [cbn in Hfuel; lia|].
    destruct Hgo as (u' & Hnext & Hserves).
    apply serves_cons in Hserves as (resp' & n1 & body' & Hsend & Hbody' & Hvalue & Hgo').
    set (w1 := {| net := n1; sent := sent w ++ [get_request u' hs];
                  console := console w; store := store w; disk := disk w |}).
    destruct (IH fuel resp' body' w1 (acc ++ page)%list n' Hbody' Hgo')
      as (w' & Hrun & Hnet & Hsent); [cbn in Hfuel; lia|].
    exists w'. split; [|split; [exact Hnet|]].
    + cbn [follow_next_links].
      run_with ltac:(apply json_run; exact Hbody).
      run_with ltac:(apply lift_run; exact (getitem_str_in _ _ _ Hnext)).
      cbv iota.
      run_with ltac:(apply json_run; exact Hbody).
      run_with ltac:(apply lift_run; exact Hnext).
      run_with ltac:(apply request_raw_run; [exact Hhs | exact Hsend]).
      run_with ltac:(apply json_run; exact Hbody').
      run_with ltac:(apply lift_run; exact Hvalue).
      run_with ltac:(apply lift_run; reflexivity).
      fold w1. rewrite Hrun. cbn [concat]. rewrite app_assoc. reflexivity.
    + rewrite Hsent. subst w1. cbn. rewrite length_app. cbn. lia.
Qed.

(** C1. When the remote end serves a sequence of pages from the initial
    URL on, [get_all_data] (given fuel for the rounds of its loop)
    returns the pages' ['value'] arrays concatenated in the order
    served; it sends one request per page, so it stops at the first
    answer without ['@odata.nextLink']; and the number of records
    returned is the sum of the lengths of the pages. *)
Theorem get_all_data_concatenates_pages
    (fuel : nat) (self : Client) (data_model : string) (params : option loc)
    (sel : option (list string)) (d : dict) (w : World) (api : string) (hs : dict)
    (pages : list (list pyobj)) (n' : remote) :
  api_url self = Some api ->
  headers self = Some hs ->
  arg_dict w params d ->
  serves hs (net w) (generate_url (api +:+ data_model) (prepared sel d)) pages n' ->
  (length pages <= S fuel)%nat ->
  exists w',
    get_all_data fuel self data_model params sel w
      = (Returns (PList (concat pages)), w') /\
    net w' = n' /\
    length (sent w') = (length (sent w) + length pages)%nat /\
    length (concat pages) = sum_list (length <$> pages).
Proof.
  intros Hapi Hhs Harg Hserves Hfuel.
  destruct (get_all_data_prepares fuel self data_model params sel d w Harg)
    as (l & w1 & _ & _ & Hnet1 & Hsent1 & _ & _ & Hrun).
  rewrite Hrun. clear Hrun.
  destruct pages as [|page rest]; [destruct Hserves|].
  apply serves_cons in Hserves as (resp & n1 & body & Hsend & Hbody & Hvalue & Hgo).
  set (w2 := log_more (with_dict w1 l (prepared sel d)) (pagination_warnings d)).
  set (w3 := {| net := n1;
                sent := sent w2 ++ [get_request (generate_url (api +:+ data_model) (prepared sel d)) hs];
                console := console w2; store := store w2; disk := disk w2 |}).
  destruct (follow_next_links_goes_on self hs Hhs rest fuel resp body w3 page n' Hbody Hgo)
    as (w' & Hloop & Hnet & Hsent); [cbn in Hfuel; lia|].
  exists w'. split; [|split; [exact Hnet|split]].
  - unfold fetch_pages.
    run_with ltac:(apply attr_run; exact Hapi).
    run_with ltac:(apply deref_run; apply with_dict_lookup).
    fold w2.
    run_with ltac:(apply request_raw_run;
                   [exact Hhs | change (net w2) with (net w1); rewrite Hnet1; exact Hsend]).
    run_with ltac:(apply json_run; exact Hbody).
    run_with ltac:(apply lift_run; exact Hvalue).
    fold w2 w3. exact Hloop.
  - rewrite Hsent. subst w3 w2. cbn. rewrite length_app, Hsent1. cbn. lia.
  - clear. induction (page :: rest) as [|p ps IH]; cbn; [reflexivity|].
    rewrite length_app, IH. reflexivity.
Qed.

(** *** Uploading a local file *)

Lemma upload_document_from_file_not_a_path (self : Client) (v : pyobj)
    (document_object : option loc) (w : World) :
  fst (upload_document_from_file self (NotPath v) document_object w)
  = Raises (TypeError "file must be a pathlib.Path").
Proof. destruct document_object; reflexivity. Qed.

Lemma upload_document_from_file_missing (self : Client) (p : Path)
    (document_object : option loc) (w : World) :
  disk w !! path_str p = None ->
  fst (upload_document_from_file self (IsPath p) document_object w)
  = Raises (FileNotFoundError ("file does not exist: " +:+ path_str p)).
Proof.
  intros H. unfold upload_document_from_file.
  destruct document_object; unfold_M; cbn; rewrite H;
    (rewrite bool_decide_eq_false_2 by (intros [x Hx]; discriminate)); reflexivity.
Qed.

(** For an existing file the upload goes out with the caller's
    [document_object] nested under ['FolderId'] in a new options
    dictionary; the caller's dictionary itself is left as it was. *)
Lemma upload_document_from_file_sends (self : Client) (p : Path) (l : loc)
    (document : dict) (data api : string) (hs : dict) (resp : Response)
    (n1 : remote) (w : World) :
  store w !! l = Some document ->
  disk w !! path_str p = Some (RegularFile data) ->
  api_url self = Some api ->
  headers self = Some hs ->
  let sent_request :=
    create_request api hs
      [("document", (None, json_dumps (PDict [(KStr "FolderId", PDict document)])));
       ("fileData", (Some (path_name p), data))] in
  send sent_request (net w) = (inr resp, n1) ->
  exists w',
    upload_document_from_file self (IsPath p) (Some l) w = (Returns resp, w') /\
    sent w' = (sent w ++ [sent_request])%list /\
    store w' !! l = Some document.
Proof.
  intros Hl Hfile Hapi Hhs sent_request Hsend.
  set (l2 := fresh (dom (store w))).
  assert (Hfresh : l2 <> l).
  { intros Heq. apply (is_fresh (dom (store w))). fold l2. rewrite Heq.
    apply elem_of_dom. eauto. }
  unfold upload_document_from_file.
  run_with ltac:(reflexivity).
  run_with ltac:(reflexivity).
  rewrite bool_decide_eq_true_2 by (rewrite Hfile; eauto). cbn [negb].
  run_with ltac:(apply read_file_run; exact Hfile).
  run_with ltac:(apply deref_run; exact Hl).
  unfold upload_document.
  run_with ltac:(reflexivity).
  fold l2.
  run_with ltac:(apply contains_run; cbn; apply lookup_insert_eq).
  run_with ltac:(reflexivity).
  run_with ltac:(apply contains_run; cbn; apply lookup_insert_eq).
  run_with ltac:(reflexivity).
  run_with ltac:(apply update_run; cbn; apply lookup_insert_eq).
  unfold documents_createdocument.
  run_with ltac:(apply deref_run; cbn; apply lookup_insert_eq).
  run_with ltac:(reflexivity).
  run_with ltac:(apply attr_run; exact Hapi).
  run_with ltac:(apply attr_run; exact Hhs).
  cbn [dict_set].
  erewrite request_run; [|exact Hsend].
  eexists. split; [reflexivity|]. cbn. split; [reflexivity|].
  rewrite !lookup_insert_ne by exact Hfresh. exact Hl.
Qed.

End Proofs.

(* ===================================================================== *)
(** ** The other methods *)
(* ===================================================================== *)

Section MoreProofs.
Context `{RT : Runtime}.

Lemma bind_raises {A B} (m : M A) (f : A -> M B) (w w' : World) (e : exn) :
  m w = (Raises e, w') -> (m ≫= f) w = (Raises e, w').
Proof. intros H. unfold mbind, M_bind. rewrite H. reflexivity. Qed.

Ltac step_with lem := erewrite bind_returns; [ | lem ].

Ltac unfold_M_more :=
  unfold request_raw, requests_get, contains, delitem, setitem, update,
    or_new_dict, skip, lift, attr, json in *;
  unfold alloc, deref, put, emit, request, path_exists, read_file, raise in *;
  unfold mbind, M_bind, mret, M_ret in *.

Ltac fail_with lem := erewrite bind_raises; [ | lem ].

(** The world after one exchange. *)
Lemma request_world (r : Request) (w : World) :
  request r w =
    (match fst (send r (net w)) with inl e => Raises e | inr resp => Returns resp end,
     {| net := snd (send r (net w)); sent := sent w ++ [r]; console := console w;
        store := store w; disk := disk w |}).
Proof. unfold request. destruct (send r (net w)). reflexivity. Qed.

Lemma content_type_set (hs : dict) :
  dict_get (KStr "Content-Type")
    (dict_set (KStr "Content-Type") (PStr "application/json") hs)
  = Some (PStr "application/json").
Proof. rewrite dict_get_set, key_eqb_refl. reflexivity. Qed.

Lemma other_headers_kept (hs : dict) (k : hkey) :
  key_eqb (KStr "Content-Type") k = false ->
  dict_get k (dict_set (KStr "Content-Type") (PStr "application/json") hs)
  = dict_get k hs.
Proof. intros H. rewrite dict_get_set, H. reflexivity. Qed.

(** X1. [post_data] sends one [POST] to the model's URL with the data
    as JSON body and hands back whatever the server answers, error
    statuses included.  The headers sent are the client's with
    [Content-Type: application/json]; every other header of the client,
    [Authorization] among them, goes out unchanged. *)
Theorem post_data_sends_json
    (self : Client) (data_model : string) (data : pyobj) (w : World)
    (api : string) (hs : dict) (resp : Response) (n1 : remote) :
  api_url self = Some api ->
  headers self = Some hs ->
  send (json_request "POST" (api +:+ data_model) hs data) (net w) = (inr resp, n1) ->
  post_data self data_model data w =
    (Returns resp,
     {| net := n1;
        sent := sent w ++ [json_request "POST" (api +:+ data_model) hs data];
        console := console w; store := store w; disk := disk w |}) /\
  (forall sent_headers,
     req_headers (json_request "POST" (api +:+ data_model) hs data) = Some sent_headers ->
     dict_get (KStr "Content-Type") sent_headers = Some (PStr "application/json") /\
     forall k, key_eqb (KStr "Content-Type") k = false ->
               dict_get k sent_headers = dict_get k hs).
Proof.
  intros Hapi Hhs Hsend. split.
  - unfold post_data.
    step_with ltac:(apply attr_run; exact Hapi).
    step_with ltac:(apply attr_run; exact Hhs).
    apply request_run. exact Hsend.
  - intros sent_headers [= <-]. split; [apply content_type_set|].
    intros k Hk. apply other_headers_kept, Hk.
Qed.

(** X2. [patch_data] sends one [PATCH] to the URL of the record,
    [model(key)], with the data as JSON body and hands back whatever
    the server answers, error statuses included.  The headers sent are
    the client's with [Content-Type: application/json]; every other
    header of the client goes out unchanged. *)
Theorem patch_data_sends_json
    (self : Client) (data_model : string) (key : Z) (data : pyobj) (w : World)
    (api : string) (hs : dict) (resp : Response) (n1 : remote) :
  api_url self = Some api ->
  headers self = Some hs ->
  let sent_request :=
    json_request "PATCH" (api +:+ data_model +:+ "(" +:+ pretty key +:+ ")") hs data in
  send sent_request (net w) = (inr resp, n1) ->
  patch_data self data_model key data w =
    (Returns resp,
     {| net := n1; sent := sent w ++ [sent_request];
        console := console w; store := store w; disk := disk w |}) /\
  (forall sent_headers,
     req_headers sent_request = Some sent_headers ->
     dict_get (KStr "Content-Type") sent_headers = Some (PStr "application/json") /\
     forall k, key_eqb (KStr "Content-Type") k = false ->
               dict_get k sent_headers = dict_get k hs).
Proof.
  intros Hapi Hhs sent_request Hsend. split.
  - unfold patch_data.
    step_with ltac:(apply attr_run; exact Hapi).
    step_with ltac:(apply attr_run; exact Hhs).
    apply request_run. exact Hsend.
  - intros sent_headers [= <-]. split; [apply content_type_set|].
    intros k Hk. apply other_headers_kept, Hk.
Qed.

Lemma attr_missing {A} (name : string) (w : World) :
  attr name (@None A) w = (Raises (AttributeError name), w).
Proof. reflexivity. Qed.

(** X3. A client without an API URL, which is what the constructor
    leaves behind when a credential field is missing, cannot reach the
    server: the methods below raise [AttributeError] for [api_url] and
    send nothing. *)
Theorem methods_need_api_url
    (self : Client) (w : World) (model : string) (id : Z) (key : string)
    (data : pyobj) (params : option loc) (d : dict) (fuel : nat)
    (sel : option (list string)) (as_pdf : bool) (verb : string) :
  api_url self = None ->
  arg_dict w params d ->
  let refused {A} (run : outcome A * World) :=
    fst run = Raises (AttributeError "api_url") /\ sent (snd run) = sent w in
  refused (post_data self model data w) /\
  refused (patch_data self model id data w) /\
  refused (delete_data self model key w) /\
  refused (custom_request self model verb data w) /\
  refused (get_document_content self id as_pdf w) /\
  refused (get_single_data self model id params w) /\
  refused (get_all_data fuel self model params sel w).
Proof.
  intros Hapi Harg refused. unfold refused.
  repeat match goal with |- _ /\ _ => split end.
  1-10: try (unfold post_data, patch_data, delete_data, custom_request,
               get_document_content; rewrite Hapi;
             fail_with ltac:(apply attr_missing); reflexivity).
  - unfold get_single_data.
    destruct (or_new_dict_run _ _ _ Harg) as (l & w1 & Hnew & _).
    step_with ltac:(exact Hnew). rewrite Hapi.
    fail_with ltac:(apply attr_missing). reflexivity.
  - unfold get_single_data.
    destruct (or_new_dict_run _ _ _ Harg) as (l & w1 & Hnew & _ & _ & Hsent & _).
    step_with ltac:(exact Hnew). rewrite Hapi.
    fail_with ltac:(apply attr_missing). exact Hsent.
  - destruct (get_all_data_prepares fuel self model params sel d w Harg)
      as (l & w1 & _ & _ & _ & _ & _ & _ & Hrun).
    rewrite Hrun. unfold fetch_pages. rewrite Hapi.
    fail_with ltac:(apply attr_missing). reflexivity.
  - destruct (get_all_data_prepares fuel self model params sel d w Harg)
      as (l & w1 & _ & _ & _ & Hsent & _ & _ & Hrun).
    rewrite Hrun. unfold fetch_pages. rewrite Hapi.
    fail_with ltac:(apply attr_missing). exact Hsent.
Qed.

(** X4. [custom_request] accepts exactly the four method strings
    ['GET'], ['POST'], ['PATCH'] and ['DELETE'], in capitals.  For any
    other string it ends with a [ValueError] and leaves the world as it
    was; for an accepted one it sends one request with that method to
    the API URL followed by the partial URL, with the data as JSON body
    for [POST] and [PATCH] and no body for [GET] and [DELETE]. *)
Theorem custom_request_dispatch
    (self : Client) (partial_url verb : string) (data : pyobj) (w : World)
    (api : string) (hs : dict) :
  api_url self = Some api ->
  headers self = Some hs ->
  let run := custom_request self partial_url verb data w in
  let sent_request :=
    {| method := verb; url := api +:+ partial_url; req_headers := Some hs;
       body := if String.eqb verb "POST" || String.eqb verb "PATCH"
               then json_payload data else NoBody |} in
  ((exists msg, fst run = Returns (inl (ValueError msg))) <-> ~ accepted_method verb) /\
  (~ accepted_method verb -> snd run = w) /\
  (accepted_method verb ->
   fst run = match fst (send sent_request (net w)) with
             | inl e => Raises e
             | inr resp => Returns (inr resp)
             end /\
   sent (snd run) = (sent w ++ [sent_request])%list).
Proof.
  intros Hapi Hhs run sent_request. subst run sent_request.
  unfold custom_request, accepted_method.
  step_with ltac:(apply attr_run; exact Hapi).
  destruct (String.eqb_spec verb "GET") as [->|Hget];
    [|destruct (String.eqb_spec verb "POST") as [->|Hpost];
      [|destruct (String.eqb_spec verb "PATCH") as [->|Hpatch];
        [|destruct (String.eqb_spec verb "DELETE") as [->|Hdelete]]]].
  1-4: (step_with ltac:(apply attr_run; exact Hhs));
       unfold mbind, M_bind; rewrite request_world; cbn;
       destruct (send _ (net w)) as [[e|resp] n1]; cbn;
       (split; [|split]);
       [ split; [ intros [msg Hm]; discriminate
                | intros Hn; exfalso; apply Hn; auto ]
       | intros Hn; exfalso; apply Hn; auto
       | intros _; split; reflexivity
       | split; [ intros [msg Hm]; discriminate
                | intros Hn; exfalso; apply Hn; auto ]
       | intros Hn; exfalso; apply Hn; auto
       | intros _; split; reflexivity ].
  split; [|split].
  - split; [intros _ [H|[H|[H|H]]]; congruence | intros _; eexists; reflexivity].
  - intros _. reflexivity.
  - intros [H|[H|[H|H]]]; congruence.
Qed.

(** X5. [request_data] asks once, whatever the answer says about a next
    page.  When the answer names no next page, [get_all_data] for the
    same URL ends the way [request_data] does: with the same ['value'],
    or with the same exception when there is none. *)
Theorem request_data_agrees_on_single_page
    (fuel : nat) (self : Client) (data_model : string) (w : World) (api : string)
    (hs : dict) (resp : Response) (n1 : remote) (body : pyobj) :
  api_url self = Some api ->
  headers self = Some hs ->
  send (get_request (api +:+ data_model) hs) (net w) = (inr resp, n1) ->
  json_loads (content resp) = Some body ->
  sent (snd (request_data self (api +:+ data_model) w))
    = (sent w ++ [get_request (api +:+ data_model) hs])%list /\
  (str_in "@odata.nextLink" body = inr false ->
   fst (get_all_data fuel self data_model None None w)
   = fst (request_data self (api +:+ data_model) w)).
Proof.
  intros Hapi Hhs Hsend Hbody.
  assert (Hrun : request_data self (api +:+ data_model) w =
                 lift (getitem_str body "value")
                   {| net := n1; sent := sent w ++ [get_request (api +:+ data_model) hs];
                      console := console w; store := store w; disk := disk w |}).
  { unfold request_data.
    step_with ltac:(apply attr_run; exact Hhs).
    step_with ltac:(apply request_run; exact Hsend).
    step_with ltac:(apply json_run; exact Hbody).
    reflexivity. }
  rewrite Hrun. split.
  - destruct (getitem_str body "value"); reflexivity.
  - intros Hlast.
    destruct (get_all_data_prepares fuel self data_model None None [] w eq_refl)
      as (l & w1 & _ & Hl & Hnet1 & _ & _ & _ & Hrun').
    rewrite Hrun'. clear Hrun'.
    change (prepared None []) with (@nil (hkey * pyobj)).
    change (pagination_warnings []) with (@nil output).
    rewrite log_more_nil, (with_dict_id _ _ _ Hl).
    unfold fetch_pages.
    step_with ltac:(apply attr_run; exact Hapi).
    step_with ltac:(apply deref_run; exact Hl).
    step_with ltac:(apply request_raw_run; [exact Hhs | rewrite Hnet1; exact Hsend]).
    step_with ltac:(apply json_run; exact Hbody).
    destruct (getitem_str body "value") as [e|page]; [reflexivity|].
    step_with ltac:(reflexivity).
    destruct fuel; cbn [follow_next_links];
      (step_with ltac:(apply json_run; exact Hbody));
      (step_with ltac:(apply lift_run; exact Hlast)); reflexivity.
Qed.

(** X6. [get_single_data] passes the caller's parameters on as they
    are: ['$top'] and ['$skip'] included, nothing is printed, and the
    caller's dictionary is the same afterwards, whatever the server
    answers. *)
Theorem get_single_data_passes_params_through
    (self : Client) (data_model : string) (data_id : Z) (l : loc) (d : dict)
    (w : World) (api : string) (hs : dict) :
  api_url self = Some api ->
  headers self = Some hs ->
  store w !! l = Some d ->
  let after := snd (get_single_data self data_model data_id (Some l) w) in
  sent after =
    (sent w ++ [get_request
                  (generate_url (api +:+ data_model +:+ "(" +:+ pretty data_id +:+ ")") d)
                  hs])%list /\
  console after = console w /\
  store after = store w.
Proof.
  intros Hapi Hhs Hl after. subst after. unfold get_single_data.
  step_with ltac:(reflexivity).
  step_with ltac:(apply attr_run; exact Hapi).
  step_with ltac:(apply deref_run; exact Hl).
  step_with ltac:(apply attr_run; exact Hhs).
  cbn [requests_get]. unfold mbind, M_bind. rewrite request_world.
  destruct (fst (send _ (net w))) as [e|resp]; [repeat split|].
  destruct (status_code resp =? 404)%Z; [repeat split|].
  unfold json. destruct (json_loads (content resp)); repeat split.
Qed.

(** *** Fetching with prepared parameters *)

Lemma fetch_pages_serves (fuel : nat) (self : Client) (data_model : string) (l : loc)
    (p : dict) (w : World) (api : string) (hs : dict) (pages : list (list pyobj))
    (n' : remote) :
  api_url self = Some api ->
  headers self = Some hs ->
  store w !! l = Some p ->
  serves hs (net w) (generate_url (api +:+ data_model) p) pages n' ->
  (length pages <= S fuel)%nat ->
  exists w',
    fetch_pages fuel self data_model l w = (Returns (PList (concat pages)), w') /\
    net w' = n' /\
    length (sent w') = (length (sent w) + length pages)%nat /\
    console w' = console w /\
    store w' = store w.
Proof.
  intros Hapi Hhs Hl Hserves Hfuel.
  destruct pages as [|page rest]; [destruct Hserves|].
  apply serves_cons in Hserves as (resp & n1 & body & Hsend & Hbody & Hvalue & Hgo).
  set (w1 := {| net := n1;
                sent := sent w ++ [get_request (generate_url (api +:+ data_model) p) hs];
                console := console w; store := store w; disk := disk w |}).
  destruct (follow_next_links_goes_on self hs Hhs rest fuel resp body w1 page n' Hbody Hgo)
    as (w' & Hloop & Hnet & Hsent); [cbn in Hfuel; lia|].
  assert (Hrun : fetch_pages fuel self data_model l w = (Returns (PList (concat (page :: rest))), w')).
  { unfold fetch_pages.
    step_with ltac:(apply attr_run; exact Hapi).
    step_with ltac:(apply deref_run; exact Hl).
    step_with ltac:(apply request_raw_run; [exact Hhs | exact Hsend]).
    step_with ltac:(apply json_run; exact Hbody).
    step_with ltac:(apply lift_run; exact Hvalue).
    fold w1. exact Hloop. }
  exists w'. split; [exact Hrun|]. split; [exact Hnet|]. split.
  - rewrite Hsent. subst w1. cbn. rewrite length_app. cbn. lia.
  - destruct (wire_only_fetch_pages fuel self data_model l w) as (Hst & _ & Hcon & _).
    rewrite Hrun in Hst, Hcon. split; assumption.
Qed.

(** X7. [get_documents] asks for the [Documents] whose [FolderId] is the
    given folder, with a parameter dictionary of its own: when the
    remote end serves pages for that query the documents of all pages
    come back in order, nothing is printed, and no dictionary of the
    caller is touched. *)
Theorem get_documents_filters_by_folder
    (fuel : nat) (self : Client) (folder_id : Z) (w : World) (api : string)
    (hs : dict) (pages : list (list pyobj)) (n' : remote) :
  api_url self = Some api ->
  headers self = Some hs ->
  serves hs (net w)
    (generate_url (api +:+ "Documents")
       [(KStr "$filter", PStr ("FolderId eq " +:+ pretty folder_id))])
    pages n' ->
  (length pages <= S fuel)%nat ->
  exists w',
    get_documents fuel self folder_id w = (Returns (PList (concat pages)), w') /\
    net w' = n' /\
    length (sent w') = (length (sent w) + length pages)%nat /\
    console w' = console w /\
    forall l d, store w !! l = Some d -> store w' !! l = Some d.
Proof.
  intros Hapi Hhs Hserves Hfuel.
  set (params := [(KStr "$filter", PStr ("FolderId eq " +:+ pretty folder_id))]).
  set (l := fresh (dom (store w))).
  set (w1 := {| net := net w; sent := sent w; console := console w;
                store := <[l := params]> (store w); disk := disk w |}).
  assert (Hl : store w1 !! l = Some params) by (cbn; apply lookup_insert_eq).
  destruct (get_all_data_prepares fuel self "Documents" (Some l) None params w1 Hl)
    as (l' & w1' & Hnew & _ & _ & _ & _ & _ & Hrun).
  cbn in Hnew. injection Hnew as <- <-.
  change (prepared None params) with params in Hrun.
  change (pagination_warnings params) with (@nil output) in Hrun.
  rewrite log_more_nil, (with_dict_id _ _ _ Hl) in Hrun.
  destruct (fetch_pages_serves fuel self "Documents" l params w1 api hs pages n'
              Hapi Hhs Hl Hserves Hfuel)
    as (w' & Hfetch & Hnet & Hsent & Hcon & Hst).
  exists w'. split; [|split; [exact Hnet|split; [exact Hsent|split; [exact Hcon|]]]].
  - unfold get_documents. fold params.
    step_with ltac:(reflexivity).
    change (get_all_data fuel self "Documents" (Some l) None w1
            = (Returns (PList (concat pages)), w')).
    rewrite Hrun. exact Hfetch.
  - intros l0 d Hd. rewrite Hst. cbn. rewrite lookup_insert_ne; [exact Hd|].
    intros Heq. apply (is_fresh (dom (store w))). fold l. rewrite Heq.
    apply elem_of_dom. eauto.
Qed.

(** X8. [get_linked_documents] and [get_model_documents] are the same
    method under two names: both page through [model(id)/Documents]
    without a query string and return the documents of all pages in
    order, printing nothing. *)
Theorem get_linked_documents_pages
    (fuel : nat) (self : Client) (model : string) (id_ : Z) (w : World)
    (api : string) (hs : dict) (pages : list (list pyobj)) (n' : remote) :
  api_url self = Some api ->
  headers self = Some hs ->
  serves hs (net w) (api +:+ (model +:+ "(" +:+ pretty id_ +:+ ")/Documents")) pages n' ->
  (length pages <= S fuel)%nat ->
  get_model_documents fuel self model id_ w = get_linked_documents fuel self model id_ w /\
  exists w',
    get_linked_documents fuel self model id_ w = (Returns (PList (concat pages)), w') /\
    net w' = n' /\
    length (sent w') = (length (sent w) + length pages)%nat /\
    console w' = console w.
Proof.
  intros Hapi Hhs Hserves Hfuel. split; [reflexivity|].
  unfold get_linked_documents.
  destruct (get_all_data_prepares fuel self (model +:+ "(" +:+ pretty id_ +:+ ")/Documents")
              None None [] w eq_refl)
    as (l & w1 & _ & Hl & Hnet1 & Hsent1 & Hcon1 & _ & Hrun).
  rewrite Hrun.
  change (prepared None []) with (@nil (hkey * pyobj)) in *.
  change (pagination_warnings []) with (@nil output).
  rewrite log_more_nil, (with_dict_id _ _ _ Hl).
  rewrite <- Hnet1 in Hserves.
  destruct (fetch_pages_serves fuel self _ l [] w1 api hs pages n' Hapi Hhs Hl Hserves Hfuel)
    as (w' & Hfetch & Hnet & Hsent & Hcon & _).
  exists w'. split; [exact Hfetch|]. split; [exact Hnet|].
  split; [rewrite Hsent, Hsent1; reflexivity | rewrite Hcon; exact Hcon1].
Qed.

(** X9. [get_all_data] never looks at the status of an answer.  When
    the first answer is a JSON object without ['value'], as the error
    bodies of the API are, the caller gets a [KeyError] for ['value']
    after the one request. *)
Theorem get_all_data_answer_without_value
    (fuel : nat) (self : Client) (data_model : string) (params : option loc)
    (sel : option (list string)) (d : dict) (w : World) (api : string) (hs : dict)
    (resp : Response) (n1 : remote) (fields : dict) :
  api_url self = Some api ->
  headers self = Some hs ->
  arg_dict w params d ->
  send (get_request (generate_url (api +:+ data_model) (prepared sel d)) hs) (net w)
    = (inr resp, n1) ->
  json_loads (content resp) = Some (PDict fields) ->
  dict_get (KStr "value") fields = None ->
  fst (get_all_data fuel self data_model params sel w) = Raises (KeyError "value") /\
  length (sent (snd (get_all_data fuel self data_model params sel w)))
    = S (length (sent w)).
Proof.
  intros Hapi Hhs Harg Hsend Hbody Hvalue.
  destruct (get_all_data_prepares fuel self data_model params sel d w Harg)
    as (l & w1 & _ & _ & Hnet1 & Hsent1 & _ & _ & Hrun).
  rewrite Hrun. clear Hrun. unfold fetch_pages.
  step_with ltac:(apply attr_run; exact Hapi).
  step_with ltac:(apply deref_run; apply with_dict_lookup).
  step_with ltac:(apply request_raw_run;
                  [exact Hhs | cbn [net log_more with_dict]; rewrite Hnet1; exact Hsend]).
  step_with ltac:(apply json_run; exact Hbody).
  cbn [getitem_str]. rewrite Hvalue.
  fail_with ltac:(reflexivity).
  cbn. rewrite length_app, Hsent1. cbn. split; [reflexivity | lia].
Qed.

(** Against a remote end whose every answer names a next page, the loop
    uses up any amount of fuel. *)
Lemma follow_next_links_never_stops (self : Client) (hs : dict) :
  headers self = Some hs ->
  (forall (r : Request) (n : remote),
     exists resp n1 body page u',
       send r n = (inr resp, n1) /\
       json_loads (content resp) = Some body /\
       getitem_str body "value" = inr (PList page) /\
       getitem_str body "@odata.nextLink" = inr (PStr u')) ->
  forall (fuel : nat) (resp : Response) (body : pyobj) (u : string)
         (acc : list pyobj) (w : World),
    json_loads (content resp) = Some body ->
    getitem_str body "@odata.nextLink" = inr (PStr u) ->
    fst (follow_next_links fuel self resp (PList acc) w) = OutOfFuel.
Proof.
  intros Hhs Hloop. induction fuel as [|fuel IH]; intros resp body u acc w Hbody Hnext;
    cbn [follow_next_links].
  - step_with ltac:(apply json_run; exact Hbody).
    step_with ltac:(apply lift_run; exact (getitem_str_in _ _ _ Hnext)).
    reflexivity.
  - destruct (Hloop (get_request u hs) (net w))
      as (resp' & n1 & body' & page & u' & Hsend & Hbody' & Hvalue & Hnext').
    step_with ltac:(apply json_run; exact Hbody).
    step_with ltac:(apply lift_run; exact (getitem_str_in _ _ _ Hnext)).
    cbv iota.
    step_with ltac:(apply json_run; exact Hbody).
    step_with ltac:(apply lift_run; exact Hnext).
    step_with ltac:(apply request_raw_run; [exact Hhs | exact Hsend]).
    step_with ltac:(apply json_run; exact Hbody').
    step_with ltac:(apply lift_run; exact Hvalue).
    step_with ltac:(apply lift_run; reflexivity).
    eapply IH; [exact Hbody' | exact Hnext'].
Qed.

(** X10. The pagination loop of [get_all_data] has no bound of its own:
    if every answer of the remote end is a page that names a next one,
    no amount of fuel lets the call return or raise. *)
Theorem get_all_data_never_stops_on_endless_links
    (self : Client) (data_model : string) (params : option loc)
    (sel : option (list string)) (d : dict) (w : World) (api : string) (hs : dict) :
  api_url self = Some api ->
  headers self = Some hs ->
  arg_dict w params d ->
  (forall (r : Request) (n : remote),
     exists resp n1 body page u',
       send r n = (inr resp, n1) /\
       json_loads (content resp) = Some body /\
       getitem_str body "value" = inr (PList page) /\
       getitem_str body "@odata.nextLink" = inr (PStr u')) ->
  forall fuel, fst (get_all_data fuel self data_model params sel w) = OutOfFuel.
Proof.
  intros Hapi Hhs Harg Hloop fuel.
  destruct (get_all_data_prepares fuel self data_model params sel d w Harg)
    as (l & w1 & _ & _ & _ & _ & _ & _ & Hrun).
  rewrite Hrun. clear Hrun. unfold fetch_pages.
  set (w2 := log_more (with_dict w1 l (prepared sel d)) (pagination_warnings d)).
  destruct (Hloop (get_request (generate_url (api +:+ data_model) (prepared sel d)) hs) (net w2))
    as (resp & n1 & body & page & u & Hsend & Hbody & Hvalue & Hnext).
  step_with ltac:(apply attr_run; exact Hapi).
  step_with ltac:(apply deref_run; apply with_dict_lookup).
  step_with ltac:(apply request_raw_run; [exact Hhs | exact Hsend]).
  step_with ltac:(apply json_run; exact Hbody).
  step_with ltac:(apply lift_run; exact Hvalue).
  eapply follow_next_links_never_stops; eassumption.
Qed.

(** *** Uploads *)

Lemma with_dict_after_log (w : World) (l : loc) (d : dict) (a b : list output) :
  log_more (with_dict (log_more w a) l d) b = log_more (with_dict w l d) (a ++ b).
Proof. unfold log_more, with_dict. cbn. rewrite app_assoc. reflexivity. Qed.

(** X11. Whatever the caller put under ['FolderId'] or ['ModuleId'] in
    the options, [upload_document] sends metadata whose ['FolderId'] is
    the [folder_id] argument and which has no ['ModuleId']; every other
    option goes out as given.  The caller's dictionary is rewritten to
    that metadata, and the answer is returned whatever its status. *)
Theorem upload_document_controls_folder
    (self : Client) (filedata filename : string) (folder_id : pyobj) (l : loc)
    (options : dict) (w : World) (api : string) (hs : dict) (resp : Response)
    (n1 : remote) :
  api_url self = Some api ->
  headers self = Some hs ->
  store w !! l = Some options ->
  let metadata :=
    dict_set (KStr "FolderId") folder_id (dict_del (KStr "ModuleId") options) in
  let sent_request :=
    create_request api hs
      [("document", (None, json_dumps (PDict metadata)));
       ("fileData", (Some filename, filedata))] in
  send sent_request (net w) = (inr resp, n1) ->
  exists w',
    upload_document self filedata filename folder_id (Some l) w = (Returns resp, w') /\
    sent w' = (sent w ++ [sent_request])%list /\
    console w' = (console w ++ upload_warnings options)%list /\
    store w' !! l = Some metadata /\
    dict_get (KStr "FolderId") metadata = Some folder_id /\
    dict_get (KStr "ModuleId") metadata = None /\
    forall k, key_eqb (KStr "FolderId") k = false ->
              key_eqb (KStr "ModuleId") k = false ->
              dict_get k metadata = dict_get k options.
Proof.
  intros Hapi Hhs Hl metadata sent_request Hsend.
  unfold upload_document.
  step_with ltac:(reflexivity).
  step_with ltac:(apply contains_run; exact Hl).
  step_with ltac:(apply emit_when).
  step_with ltac:(apply contains_run; exact Hl).
  step_with ltac:(apply drop_param_run; exact Hl).
  rewrite with_dict_after_log.
  step_with ltac:(apply update_run; apply with_dict_lookup).
  unfold documents_createdocument.
  step_with ltac:(apply deref_run; cbn; apply lookup_insert_eq).
  step_with ltac:(reflexivity).
  step_with ltac:(apply attr_run; exact Hapi).
  step_with ltac:(apply attr_run; exact Hhs).
  erewrite request_run; [|exact Hsend].
  eexists. split; [reflexivity|].
  split; [reflexivity|]. split; [reflexivity|].
  split; [cbn [store]; apply lookup_insert_eq|].
  subst metadata. split; [|split].
  - rewrite dict_get_set, key_eqb_refl. reflexivity.
  - rewrite dict_get_set, dict_get_del, key_eqb_refl. reflexivity.
  - intros k Hf Hm. rewrite dict_get_set, Hf, dict_get_del, Hm. reflexivity.
Qed.

(** A dictionary allocated after [l] was written does not displace it. *)
Lemma lookup_under_fresh (m : gmap loc dict) (l : loc) (d x : dict) :
  (<[fresh (dom (<[l := d]> m)) := x]> (<[l := d]> m)) !! l = Some d.
Proof.
  rewrite lookup_insert_ne; [apply lookup_insert_eq|].
  intros Heq. apply (is_fresh (dom (<[l := d]> m))). rewrite Heq.
  apply elem_of_dom. rewrite lookup_insert_eq. eauto.
Qed.

Lemma documents_createdocument_linked (self : Client) (filedata filename : string)
    (dl ll : loc) (document link : dict) (w : World) (api : string) (hs : dict)
    (resp : Response) (n1 : remote) :
  api_url self = Some api ->
  headers self = Some hs ->
  store w !! dl = Some document ->
  store w !! ll = Some link ->
  let sent_request :=
    create_request api hs
      [("document", (None, json_dumps (PDict document)));
       ("fileData", (Some filename, filedata));
       ("documentLink", (None, json_dumps (PDict link)))] in
  send sent_request (net w) = (inr resp, n1) ->
  documents_createdocument self filedata filename dl (Some ll) w
  = (Returns resp,
     {| net := n1; sent := sent w ++ [sent_request]; console := console w;
        store := store w; disk := disk w |}).
Proof.
  intros Hapi Hhs Hdl Hll sent_request Hsend. unfold documents_createdocument.
  step_with ltac:(apply deref_run; exact Hdl).
  step_with ltac:(erewrite bind_returns; [reflexivity | apply deref_run; exact Hll]).
  step_with ltac:(apply attr_run; exact Hapi).
  step_with ltac:(apply attr_run; exact Hhs).
  apply request_run. exact Hsend.
Qed.

(** The fields [id_key_mapping] can yield. *)
Lemma id_key_mapping_fields (id : Z) (field : string) :
  dict_get (KInt id) id_key_mapping = Some (PStr field) ->
  field = "IncidentId" \/ field = "CoworkerId" \/ field = "EquipmentId".
Proof.
  unfold id_key_mapping. cbn [dict_get].
  destruct (key_eqb (KInt 6) (KInt id)); [intros [= <-]; auto|].
  destruct (key_eqb (KInt 10) (KInt id)); [intros [= <-]; auto|].
  destruct (key_eqb (KInt 24) (KInt id)); [intros [= <-]; auto|].
  discriminate.
Qed.

Section LinkedUpload.
Variables (self : Client) (filedata filename : string) (folder_id : pyobj).
Variables (module_name : string) (linked_object_id : Z) (l : loc) (options : dict).
Variables (w : World) (table : string) (modules : dict) (id : Z) (field : string).
Variables (api : string) (hs : dict) (resp : Response) (n1 : remote).
Hypothesis Hapi : api_url self = Some api.
Hypothesis Hhs : headers self = Some hs.
Hypothesis Hl : store w !! l = Some options.
Hypothesis Hdisk :
  disk w !! path_str (path_child (script_dir self) "modules.json")
    = Some (RegularFile table).
Hypothesis Htable : json_loads table = Some (PDict modules).
Hypothesis Hid : dict_get (KStr module_name) modules = Some (PInt id).
Hypothesis Hfield : dict_get (KInt id) id_key_mapping = Some (PStr field).

Let metadata : dict := dict_set (KStr "ModuleId") (PInt id) options.

Let sent_request : Request :=
  create_request api hs
    [("document", (None, json_dumps (PDict metadata)));
     ("fileData", (Some filename, filedata));
     ("documentLink",
      (None, json_dumps (PDict (link_of field linked_object_id folder_id))))].

Hypothesis Hsend : send sent_request (net w) = (inr resp, n1).

Lemma upload_linked_document_run :
  upload_linked_document self filedata filename folder_id module_name
    linked_object_id (Some l) w
  = (Returns (Some resp),
     {| net := n1; sent := sent w ++ [sent_request];
        console :=
          (console w ++ linked_upload_warnings options) ++
          (if (status_code resp =? 200)%Z then []
           else [LogError ("Error uploading document with filename "
                           +:+ filename +:+ ": " +:+ content resp)]);
        store :=
          <[fresh (dom (<[l := metadata]> (store w)))
              := link_of field linked_object_id folder_id]>
            (<[l := metadata]> (store w));
        disk := disk w |}).
Proof.
  assert (Hlink :
    match folder_id with
    | PNone => [(KStr field, PInt linked_object_id)]
    | _ => dict_set (KStr "FolderId") folder_id [(KStr field, PInt linked_object_id)]
    end = link_of field linked_object_id folder_id).
  { unfold link_of.
    destruct (id_key_mapping_fields _ _ Hfield) as [-> | [-> | ->]];
      destruct folder_id; reflexivity. }
  unfold upload_linked_document.
  step_with ltac:(reflexivity).
  step_with ltac:(apply contains_run; exact Hl).
  step_with ltac:(apply emit_when).
  step_with ltac:(apply contains_run; exact Hl).
  step_with ltac:(apply emit_when).
  rewrite log_more_more.
  step_with ltac:(apply read_file_run; exact Hdisk).
  rewrite Htable.
  step_with ltac:(reflexivity).
  cbn [str_in lift]. unfold dict_mem at 1. rewrite Hid.
  step_with ltac:(reflexivity).
  cbn [negb getitem_str]. rewrite Hid.
  step_with ltac:(reflexivity).
  cbn [as_key]. rewrite Hfield.
  step_with ltac:(apply update_run; exact Hl).
  cbn [as_key]. rewrite Hlink.
  step_with ltac:(reflexivity).
  step_with ltac:(apply (documents_createdocument_linked self filedata filename l _
                           metadata (link_of field linked_object_id folder_id)
                           _ api hs resp n1 Hapi Hhs);
                  [ apply lookup_under_fresh
                  | cbn [store]; apply lookup_insert_eq
                  | exact Hsend ]).
  destruct (status_code resp =? 200)%Z; cbn [negb].
  - step_with ltac:(reflexivity). cbn. rewrite app_nil_r. reflexivity.
  - step_with ltac:(apply emit_run). reflexivity.
Qed.

End LinkedUpload.

(** X12. For a module that the table lists with an id that has a
    foreign-key field, [upload_linked_document] sends one multipart
    request: the options with ['ModuleId'] set to the id, the file, and
    a link made of that field with the object id, plus ['FolderId'] when
    a folder is given.  The answer comes back whatever its status, and
    the error is logged exactly when the status is not 200. *)
Theorem upload_linked_document_links
    (self : Client) (filedata filename : string) (folder_id : pyobj)
    (module_name : string) (linked_object_id : Z) (l : loc) (options : dict)
    (w : World) (table : string) (modules : dict) (id : Z) (field : string)
    (api : string) (hs : dict) (resp : Response) (n1 : remote) :
  api_url self = Some api ->
  headers self = Some hs ->
  store w !! l = Some options ->
  disk w !! path_str (path_child (script_dir self) "modules.json")
    = Some (RegularFile table) ->
  json_loads table = Some (PDict modules) ->
  dict_get (KStr module_name) modules = Some (PInt id) ->
  dict_get (KInt id) id_key_mapping = Some (PStr field) ->
  let sent_request :=
    create_request api hs
      [("document",
        (None, json_dumps (PDict (dict_set (KStr "ModuleId") (PInt id) options))));
       ("fileData", (Some filename, filedata));
       ("documentLink",
        (None, json_dumps (PDict (link_of field linked_object_id folder_id))))] in
  send sent_request (net w) = (inr resp, n1) ->
  let run := upload_linked_document self filedata filename folder_id module_name
               linked_object_id (Some l) w in
  fst run = Returns (Some resp) /\
  sent (snd run) = (sent w ++ [sent_request])%list /\
  (status_code resp = 200 ->
   console (snd run) = (console w ++ linked_upload_warnings options)%list) /\
  (status_code resp <> 200 ->
   console (snd run) =
     (console w ++ linked_upload_warnings options ++
      [LogError ("Error uploading document with filename "
                 +:+ filename +:+ ": " +:+ content resp)])%list).
Proof.
  intros Hapi Hhs Hl Hdisk Htable Hid Hfield sent_request Hsend run. subst run.
  rewrite (upload_linked_document_run self filedata filename folder_id module_name
             linked_object_id l options w table modules id field api hs resp n1
             Hapi Hhs Hl Hdisk Htable Hid Hfield Hsend).
  cbn [fst snd sent console].
  split; [reflexivity|]. split; [reflexivity|]. split.
  - intros ->. cbn. rewrite app_nil_r. reflexivity.
  - intros Hst. apply Z.eqb_neq in Hst. rewrite Hst, app_assoc. reflexivity.
Qed.

(** X13. A ['FolderId'] among the document options of
    [upload_linked_document] draws the warning that it will be ignored,
    yet it is not: the method neither removes nor replaces it, and it
    is part of the metadata that goes out. *)
Theorem upload_linked_document_sends_options_folder
    (self : Client) (filedata filename : string) (folder_id : pyobj)
    (module_name : string) (linked_object_id : Z) (l : loc) (options : dict)
    (w : World) (table : string) (modules : dict) (id : Z) (field : string)
    (api : string) (hs : dict) (resp : Response) (n1 : remote) (folder : pyobj) :
  api_url self = Some api ->
  headers self = Some hs ->
  store w !! l = Some options ->
  disk w !! path_str (path_child (script_dir self) "modules.json")
    = Some (RegularFile table) ->
  json_loads table = Some (PDict modules) ->
  dict_get (KStr module_name) modules = Some (PInt id) ->
  dict_get (KInt id) id_key_mapping = Some (PStr field) ->
  dict_get (KStr "FolderId") options = Some folder ->
  let metadata := dict_set (KStr "ModuleId") (PInt id) options in
  let sent_request :=
    create_request api hs
      [("document", (None, json_dumps (PDict metadata)));
       ("fileData", (Some filename, filedata));
       ("documentLink",
        (None, json_dumps (PDict (link_of field linked_object_id folder_id))))] in
  send sent_request (net w) = (inr resp, n1) ->
  let run := upload_linked_document self filedata filename folder_id module_name
               linked_object_id (Some l) w in
  sent (snd run) = (sent w ++ [sent_request])%list /\
  dict_get (KStr "FolderId") metadata = Some folder /\
  store (snd run) !! l = Some metadata /\
  In (LogWarning "Warning: pylandax.upload_linked_document does not support FolderId parameter in document_options. It will be ignored.")
     (console (snd run)).
Proof.
  intros Hapi Hhs Hl Hdisk Htable Hid Hfield Hfolder metadata sent_request Hsend run.
  subst run.
  rewrite (upload_linked_document_run self filedata filename folder_id module_name
             linked_object_id l options w table modules id field api hs resp n1
             Hapi Hhs Hl Hdisk Htable Hid Hfield Hsend).
  cbn [fst snd sent console store].
  split; [reflexivity|]. split; [|split].
  - subst metadata. rewrite dict_get_set. exact Hfolder.
  - apply lookup_under_fresh.
  - unfold linked_upload_warnings, dict_mem. rewrite Hfolder.
    apply in_or_app. left. apply in_or_app. right. apply in_or_app. left.
    left. reflexivity.
Qed.

(** X14. The module table is read from [modules.json] beside the module
    on every call, before anything is sent: without that file
    [upload_linked_document] raises [FileNotFoundError], whatever the
    module name. *)
Theorem upload_linked_document_needs_table
    (self : Client) (filedata filename : string) (folder_id : pyobj)
    (module_name : string) (linked_object_id : Z) (document_options : option loc)
    (options : dict) (w : World) :
  arg_dict w document_options options ->
  disk w !! path_str (path_child (script_dir self) "modules.json") = None ->
  let run := upload_linked_document self filedata filename folder_id module_name
               linked_object_id document_options w in
  fst run = Raises (FileNotFoundError
                      (path_str (path_child (script_dir self) "modules.json"))) /\
  sent (snd run) = sent w.
Proof.
  intros Harg Hdisk run. subst run.
  destruct (or_new_dict_run _ _ _ Harg) as (l & w1 & Hnew & Hl & _ & Hsent & _ & Hdisk1).
  unfold upload_linked_document.
  step_with ltac:(exact Hnew).
  step_with ltac:(apply contains_run; exact Hl).
  step_with ltac:(apply emit_when).
  step_with ltac:(apply contains_run; exact Hl).
  step_with ltac:(apply emit_when).
  fail_with ltac:(unfold read_file; cbn [disk log_more]; rewrite Hdisk1, Hdisk; reflexivity).
  split; [reflexivity | exact Hsent].
Qed.

(** X15. [upload_document_from_file] uploads regular files only.  A path
    that does not exist raises [FileNotFoundError]; a directory passes
    the existence check and then fails at [read_bytes] with
    [IsADirectoryError].  Nothing is sent in either case. *)
Theorem upload_document_from_file_needs_regular_file
    (self : Client) (p : Path) (document_object : option loc) (w : World) :
  (forall data, disk w !! path_str p <> Some (RegularFile data)) ->
  let run := upload_document_from_file self (IsPath p) document_object w in
  sent (snd run) = sent w /\
  (disk w !! path_str p = None ->
   fst run = Raises (FileNotFoundError ("file does not exist: " +:+ path_str p))) /\
  (disk w !! path_str p = Some Directory ->
   fst run = Raises (IsADirectoryError (path_str p))).
Proof.
  intros Hnot run. subst run. unfold upload_document_from_file.
  destruct document_object as [l|]; unfold_M_more; cbn;
    (destruct (disk w !! path_str p) as [[data|]|] eqn:Hnode;
     [ exfalso; exact (Hnot data eq_refl)
     | rewrite bool_decide_eq_true_2 by eauto; cbn; rewrite ?Hnode; cbn;
       split; [reflexivity|]; split; [discriminate | reflexivity]
     | rewrite bool_decide_eq_false_2 by (intros [x Hx]; discriminate); cbn;
       split; [reflexivity|]; split; [reflexivity | discriminate] ]).
Qed.

(** *** The constructor *)

(** [get_oauth_token] sends its one request, whatever comes of it. *)
Lemma get_oauth_token_sends (self : Client) (w : World) (base : string)
    (cid secret user pass : pyobj) :
  base_url self = Some base ->
  client_id self = Some cid ->
  client_secret self = Some secret ->
  username self = Some user ->
  password self = Some pass ->
  snd (get_oauth_token self w) =
    {| net := snd (send (token_request base cid secret user pass) (net w));
       sent := sent w ++ [token_request base cid secret user pass];
       console := console w; store := store w; disk := disk w |}.
Proof.
  intros Hbase Hcid Hsecret Huser Hpass. unfold get_oauth_token.
  step_with ltac:(apply attr_run; exact Hbase).
  step_with ltac:(apply attr_run; exact Hcid).
  step_with ltac:(apply attr_run; exact Hsecret).
  step_with ltac:(apply attr_run; exact Huser).
  step_with ltac:(apply attr_run; exact Hpass).
  unfold mbind, M_bind. fold (token_request base cid secret user pass).
  rewrite request_world.
  destruct (fst (send _ (net w))) as [e|resp]; [reflexivity|].
  destruct (status_code resp =? 200)%Z; cbn [negb]; [|reflexivity].
  unfold json. destruct (json_loads (content resp)) as [data|]; [|reflexivity].
  cbn. destruct (str_in "access_token" data) as [e|[|]]; cbn; try reflexivity.
  destruct (getitem_str data "access_token"); reflexivity.
Qed.


(** X17. The token is not checked to be a string: when the token
    endpoint answers 200 with an ['access_token'] that is a number, a
    list, an object, a boolean or null, the constructor fails with
    [TypeError] at ['Bearer ' + token], after the token request. *)
Theorem init_rejects_non_string_token
    (module_dir : Path) (url : string) (credentials : dict) (version : string)
    (w : World) (user pass cid secret : pyobj) (resp : Response) (net' : remote)
    (fields : dict) (token : pyobj) :
  dict_get (KStr "username") credentials = Some user ->
  dict_get (KStr "password") credentials = Some pass ->
  dict_get (KStr "client_id") credentials = Some cid ->
  dict_get (KStr "client_secret") credentials = Some secret ->
  send (token_request ("https://" +:+ url +:+ "/") cid secret user pass) (net w)
    = (inr resp, net') ->
  status_code resp = 200 ->
  json_loads (content resp) = Some (PDict fields) ->
  dict_get (KStr "access_token") fields = Some token ->
  (forall s, token <> PStr s) ->
  let run := __init__ module_dir url credentials version w in
  fst run = Raises (TypeError "unsupported operand type(s) for +") /\
  sent (snd run)
    = (sent w ++ [token_request ("https://" +:+ url +:+ "/") cid secret user pass])%list.
Proof.
  intros Huser Hpass Hcid Hsecret Hsend Hst Hbody Htoken Hnot run. subst run.
  unfold __init__, required_credentials. cbn [List.find]. unfold dict_mem.
  rewrite Huser, Hpass, Hcid, Hsecret. cbn [negb getitem_str].
  rewrite Huser, Hpass, Hcid, Hsecret.
  do 4 (step_with ltac:(reflexivity)).
  set (self0 := Build_Client _ _ _ _ _ _ _ _ _).
  assert (Hfst := get_oauth_token_200 self0 w _ cid secret user pass resp net'
                    eq_refl eq_refl eq_refl eq_refl eq_refl Hsend Hst).
  assert (Hsnd := get_oauth_token_world self0 w _ cid secret user pass resp net'
                    eq_refl eq_refl eq_refl eq_refl eq_refl Hsend).
  rewrite Hbody in Hfst. cbn [str_in getitem_str] in Hfst. unfold dict_mem in Hfst.
  rewrite Htoken in Hfst.
  destruct (get_oauth_token self0 w) as [o w1] eqn:Hrun. cbn in Hfst, Hsnd. subst o w1.
  step_with ltac:(exact Hrun).
  assert (Hadd : py_add (PStr "Bearer ") token
                 = inl (TypeError "unsupported operand type(s) for +")).
  { destruct token; try reflexivity. exfalso. eapply Hnot. reflexivity. }
  rewrite Hadd.
  fail_with ltac:(reflexivity).
  split; reflexivity.
Qed.

(** X18. The task scripts build their credentials from the environment
    with all four keys always present, a variable that is not set
    giving the value [None].  So the constructor's check for missing
    credentials never stops them: whatever the environment, it logs
    nothing and goes on to send the token request, with [null] for
    each unset variable. *)
Theorem task_client_always_requests_a_token
    (module_dir : Path) (env : gmap string string) (w : World) :
  let run := task_client module_dir env w in
  sent (snd run) =
    (sent w ++
     [token_request ("https://" +:+ format_env (getenv env "LANDAX_URL") +:+ "/")
        (getenv env "LANDAX_CLIENT_ID") (getenv env "LANDAX_CLIENT_SECRET")
        (getenv env "LANDAX_USERNAME") (getenv env "LANDAX_PASSWORD")])%list /\
  console (snd run) = console w.
Proof.
  intros run. subst run. unfold task_client, __init__.
  assert (Hfind :
    List.find (fun key => negb (dict_mem (KStr key) (conf_credentials env)))
      required_credentials = None) by reflexivity.
  rewrite Hfind. clear Hfind.
  step_with ltac:(reflexivity). step_with ltac:(reflexivity).
  step_with ltac:(reflexivity). step_with ltac:(reflexivity).
  set (self0 := Build_Client _ _ _ _ _ _ _ _ _).
  assert (Hsnd := get_oauth_token_sends self0 w _ _ _ _ _
                    eq_refl eq_refl eq_refl eq_refl eq_refl).
  unfold mbind, M_bind.
  destruct (get_oauth_token self0 w) as [[token|e|] w1]; cbn in Hsnd; subst w1;
    [|split; reflexivity|split; reflexivity].
  unfold lift. destruct (py_add (PStr "Bearer ") token); split; reflexivity.
Qed.

(** *** [list_to_dict] *)

Lemma dict_mem_false_keys (k : hkey) (d : dict) :
  dict_mem k d = false -> ~ In (key_norm k) (List.map (fun e => key_norm (fst e)) d).
Proof.
  unfold dict_mem. induction d as [|[k0 v0] d IH]; cbn [dict_get List.map fst In].
  - intros _ [].
  - destruct (key_eqb k0 k) eqn:E; [discriminate|].
    intros H [Heq|Hin]; [|exact (IH H Hin)].
    apply key_eqb_norm in Heq. congruence.
Qed.

Lemma dict_set_present (k : hkey) (v : pyobj) (d : dict) :
  dict_mem k d = true ->
  List.map (fun e => key_norm (fst e)) (dict_set k v d)
    = List.map (fun e => key_norm (fst e)) d /\
  length (dict_set k v d) = length d.
Proof.
  unfold dict_mem. induction d as [|[k0 v0] d IH]; cbn [dict_get dict_set].
  - discriminate.
  - destruct (key_eqb k0 k); [intros _; split; reflexivity|].
    intros H. destruct (IH H) as [Hk Hlen]. cbn. rewrite Hk, Hlen. split; reflexivity.
Qed.

Lemma dict_set_absent (k : hkey) (v : pyobj) (d : dict) :
  dict_mem k d = false -> dict_set k v d = (d ++ [(k, v)])%list.
Proof.
  unfold dict_mem. induction d as [|[k0 v0] d IH]; cbn [dict_get dict_set].
  - reflexivity.
  - destruct (key_eqb k0 k); [discriminate|]. intros H. rewrite (IH H). reflexivity.
Qed.

Lemma list_to_dict_from_shape (metakey : string) (list_in : list pyobj) :
  (forall record, In record list_in -> is_Some (record_key metakey record)) ->
  forall (acc : dict) (w : World),
  NoDup (List.map (fun e => key_norm (fst e)) acc) ->
  exists d warnings,
    list_to_dict_from acc list_in metakey w = (Returns d, log_more w warnings) /\
    NoDup (List.map (fun e => key_norm (fst e)) d) /\
    (length d + length warnings = length acc + length list_in)%nat.
Proof.
  induction list_in as [|record rest IH]; intros Hkeys acc w Hacc.
  - exists acc, []. rewrite log_more_nil.
    split; [reflexivity|]. split; [exact Hacc | cbn; lia].
  - destruct (Hkeys record (or_introl eq_refl)) as [k0 Hk0].
    assert (Hrest : forall r, In r rest -> is_Some (record_key metakey r)).
    { intros r Hr. apply Hkeys. right. exact Hr. }
    unfold record_key in Hk0.
    destruct (getitem_str record metakey) as [e|v] eqn:Hitem; [discriminate|].
    cbn [list_to_dict_from]. rewrite Hitem.
    step_with ltac:(reflexivity). rewrite Hk0.
    destruct (dict_mem k0 acc) eqn:Hmem.
    + destruct (dict_set_present k0 record acc Hmem) as [Hsame Hlen].
      step_with ltac:(apply emit_run).
      destruct (IH Hrest (dict_set k0 record acc)
                  (log_more w [Print ("Warning: " +:+ str_key k0 +:+ " already present, overwriting")]))
        as (d & warnings & Hrun & Hnodup & Hcount).
      { rewrite Hsame. exact Hacc. }
      exists d, (Print ("Warning: " +:+ str_key k0 +:+ " already present, overwriting") :: warnings).
      rewrite Hrun, log_more_more.
      split; [reflexivity|]. split; [exact Hnodup|].
      rewrite Hlen in Hcount. cbn [length]. lia.
    + step_with ltac:(reflexivity).
      destruct (IH Hrest (dict_set k0 record acc) w) as (d & warnings & Hrun & Hnodup & Hcount).
      { rewrite (dict_set_absent _ _ _ Hmem), List.map_app. cbn [List.map fst].
        apply NoDup_app. split; [exact Hacc|]. split.
        - intros x Hx Hx'. apply list_elem_of_In in Hx. apply list_elem_of_In in Hx'.
          destruct Hx' as [<-|[]]. exact (dict_mem_false_keys _ _ Hmem Hx).
        - apply NoDup_singleton. }
      exists d, warnings. rewrite Hrun.
      split; [reflexivity|]. split; [exact Hnodup|].
      rewrite (dict_set_absent _ _ _ Hmem), length_app in Hcount. cbn [length] in *. lia.
Qed.

(** X19. The dictionary [list_to_dict] returns has no two entries with
    equal keys, and every record of the list is accounted for: it either
    created an entry or overwrote one, the latter with one printed
    warning each. *)
Theorem list_to_dict_entries_and_warnings
    (list_in : list pyobj) (metakey : string) (w : World) :
  (forall record, In record list_in -> is_Some (record_key metakey record)) ->
  exists d warnings,
    list_to_dict list_in metakey w = (Returns d, log_more w warnings) /\
    NoDup (List.map (fun e => key_norm (fst e)) d) /\
    (length d + length warnings = length list_in)%nat.
Proof.
  intros Hkeys.
  destruct (list_to_dict_from_shape metakey list_in Hkeys [] w (NoDup_nil_2))
    as (d & warnings & Hrun & Hnodup & Hcount).
  exists d, warnings. split; [exact Hrun|]. split; [exact Hnodup | exact Hcount].
Qed.

Lemma list_to_dict_from_bad_record (metakey : string) (record : pyobj)
    (post : list pyobj) :
  record_key metakey record = None ->
  forall (pre : list pyobj),
  (forall r, In r pre -> is_Some (record_key metakey r)) ->
  forall (acc : dict) (w : World),
  fst (list_to_dict_from acc (pre ++ record :: post) metakey w) =
    Raises match getitem_str record metakey with
           | inl e => e
           | inr _ => TypeError "unhashable type"
           end.
Proof.
  intros Hbad. induction pre as [|r pre IH]; intros Hpre acc w.
  - cbn [app list_to_dict_from]. unfold record_key in Hbad.
    destruct (getitem_str record metakey) as [e|v]; [reflexivity|].
    step_with ltac:(reflexivity). rewrite Hbad. reflexivity.
  - destruct (Hpre r (or_introl eq_refl)) as [k0 Hk0].
    unfold record_key in Hk0.
    destruct (getitem_str r metakey) as [e|v] eqn:Hitem; [discriminate|].
    cbn [app list_to_dict_from]. rewrite Hitem.
    step_with ltac:(reflexivity). rewrite Hk0.
    step_with ltac:(apply emit_when).
    apply IH. intros r' Hr'. apply Hpre. right. exact Hr'.
Qed.

(** X20. [list_to_dict] returns nothing when a record cannot be filed:
    the first record without the key field raises [KeyError] for the
    field (a record that is not a dictionary, or whose key value is a
    list or a dictionary, raises [TypeError]), even though the records
    before it were fine. *)
Theorem list_to_dict_stops_at_bad_record
    (pre : list pyobj) (record : pyobj) (post : list pyobj) (metakey : string)
    (w : World) :
  (forall r, In r pre -> is_Some (record_key metakey r)) ->
  record_key metakey record = None ->
  fst (list_to_dict (pre ++ record :: post) metakey w) =
    Raises match getitem_str record metakey with
           | inl e => e
           | inr _ => TypeError "unhashable type"
           end /\
  (forall fields, record = PDict fields ->
     dict_get (KStr metakey) fields = None ->
     fst (list_to_dict (pre ++ record :: post) metakey w) = Raises (KeyError metakey)).
Proof.
  intros Hpre Hbad.
  assert (Hrun := list_to_dict_from_bad_record metakey record post Hbad pre Hpre [] w).
  split; [exact Hrun|].
  intros fields -> Hmissing. unfold list_to_dict. rewrite Hrun.
  cbn [getitem_str]. rewrite Hmissing. reflexivity.
Qed.

End MoreProofs.

(* ===================================================================== *)
(** ** The statements at work on the test double *)
(* ===================================================================== *)

#[local] Existing Instance Mock.runtime.

(** Two pages of items, the first naming the URL of the second. *)
Lemma get_all_data_concatenates_pages_witness :
  exists w',
    get_all_data 1 Mock.client "Items" None None
      (Mock.world [Mock.ok Mock.page_one; Mock.ok Mock.page_two] ∅ ∅)
      = (Returns (PList [PInt 1; PInt 2; PInt 3]), w') /\
    net w' = [] /\
    length (sent w') = 2%nat /\
    length [PInt 1; PInt 2; PInt 3] = 3%nat.
Proof.
  apply (get_all_data_concatenates_pages 1 Mock.client "Items" None None []
           (Mock.world [Mock.ok Mock.page_one; Mock.ok Mock.page_two] ∅ ∅)
           Mock.api Mock.auth [[PInt 1; PInt 2]; [PInt 3]] []).
  - reflexivity.
  - reflexivity.
  - reflexivity.
  - exists {| status_code := 200; content := Mock.dumps Mock.page_one |},
           [Mock.ok Mock.page_two], Mock.page_one.
    split; [reflexivity|]. split; [vm_compute; reflexivity|]. split; [reflexivity|].
    exists "https://landax.test/api/v20/Items?$skip=2". split; [reflexivity|].
    exists {| status_code := 200; content := Mock.dumps Mock.page_two |},
           [], Mock.page_two.
    split; [reflexivity|]. split; [vm_compute; reflexivity|]. split; [reflexivity|].
    split; reflexivity.
  - cbn. lia.
Defined.

(** A record that is not there. *)
Lemma get_single_data_not_found_is_none_witness :
  fst (get_single_data Mock.client "Contacts" 7 None
         (Mock.world [Mock.status 404 "Not Found"] ∅ ∅)) = Returns PNone.
Proof.
  apply (get_single_data_not_found_is_none Mock.client "Contacts" 7 None
           (Mock.world [Mock.status 404 "Not Found"] ∅ ∅) Mock.api Mock.auth []
           {| status_code := 404; content := "Not Found" |} []);
    reflexivity.
Defined.

(** A caller asking for the first five records of a filtered set. *)
Lemma get_all_data_ignores_top_and_skip_witness :
  fst (get_all_data 3 Mock.client "Items" (Some 1%positive) None
         (Mock.world [Mock.ok Mock.page_two] {[ 1%positive := Mock.first_five ]} ∅))
  = fst (get_all_data 3 Mock.client "Items" (Some 1%positive) None
           (with_dict
              (Mock.world [Mock.ok Mock.page_two] {[ 1%positive := Mock.first_five ]} ∅)
              1%positive [(KStr "$filter", PStr "Id gt 1")])).
Proof.
  apply (get_all_data_ignores_top_and_skip 3 Mock.client "Items" 1%positive None
           Mock.first_five
           (Mock.world [Mock.ok Mock.page_two] {[ 1%positive := Mock.first_five ]} ∅)).
  reflexivity.
Defined.

(** A module the table lists, but with no foreign-key field. *)
Lemma upload_linked_document_unlinkable_module_witness :
  exists w' warnings msg,
    upload_linked_document Mock.client "bytes" "a.txt" PNone "PROJECTS" 40 None
      (Mock.world [Mock.status 200 "ok"] ∅
         {[ "/opt/pylandax/modules.json" := RegularFile (Mock.dumps Mock.module_table) ]})
      = (Returns None, w') /\
    sent w' = [] /\ net w' = [Mock.status 200 "ok"] /\
    console w' = ([] ++ warnings ++ [LogError msg])%list.
Proof.
  apply (upload_linked_document_unlinkable_module Mock.client "bytes" "a.txt" PNone
           "PROJECTS" 40 None
           (Mock.world [Mock.status 200 "ok"] ∅
              {[ "/opt/pylandax/modules.json" := RegularFile (Mock.dumps Mock.module_table) ]})
           [] (Mock.dumps Mock.module_table)
           [(KStr "INCIDENTS", PInt 6); (KStr "PROJECTS", PInt 3)]).
  - reflexivity.
  - vm_compute. reflexivity.
  - vm_compute. reflexivity.
  - right. exists 3. split; reflexivity.
Defined.

(** The PDF rendering is still in progress. *)
Lemma get_document_content_requires_200_witness :
  exists msg,
    fst (get_document_content Mock.client 42 true
           (Mock.world [Mock.status 202 ""] ∅ ∅))
    = Raises (LandaxDataException msg).
Proof.
  apply (get_document_content_requires_200 Mock.client 42 true
           (Mock.world [Mock.status 202 ""] ∅ ∅) Mock.api Mock.auth
           {| status_code := 202; content := "" |} []);
    reflexivity.
Defined.

(** A gateway in front of the token endpoint answers 200 with a page of HTML. *)
Lemma get_oauth_token_non_json_body_escapes_witness :
  fst (get_oauth_token Mock.client
         (Mock.world [Mock.status 200 "<html>Maintenance</html>"] ∅ ∅))
  = Raises JSONDecodeError.
Proof.
  apply (get_oauth_token_non_json_body_escapes Mock.client
           (Mock.world [Mock.status 200 "<html>Maintenance</html>"] ∅ ∅)
           "https://landax.test/" (PStr "cid") (PStr "cs") (PStr "ada") (PStr "pw")
           {| status_code := 200; content := "<html>Maintenance</html>" |} []);
    reflexivity.
Defined.

(** Credentials without a password. *)
Lemma init_missing_credential_logs_and_returns_witness :
  exists self missing w',
    __init__ Mock.module_dir "landax.test"
      [(KStr "username", PStr "ada"); (KStr "client_id", PStr "cid");
       (KStr "client_secret", PStr "cs")] "v20"
      (Mock.world [Mock.ok Mock.token_body] ∅ ∅) = (Returns self, w') /\
    In missing required_credentials /\
    dict_mem (KStr missing)
      [(KStr "username", PStr "ada"); (KStr "client_id", PStr "cid");
       (KStr "client_secret", PStr "cs")] = false /\
    console w' = ([] ++ [LogError ("Error: credential field is required: " +:+ missing)])%list /\
    sent w' = [] /\ net w' = [Mock.ok Mock.token_body] /\
    oauth_token self = None /\ headers self = None /\ api_url self = None.
Proof.
  apply (init_missing_credential_logs_and_returns Mock.module_dir "landax.test"
           [(KStr "username", PStr "ada"); (KStr "client_id", PStr "cid");
            (KStr "client_secret", PStr "cs")] "v20"
           (Mock.world [Mock.ok Mock.token_body] ∅ ∅) "password").
  - right. left. reflexivity.
  - reflexivity.
Defined.

(** Two contacts filed under the same id. *)
Lemma list_to_dict_last_occurrence_wins_witness :
  exists d warnings,
    list_to_dict [Mock.contact; Mock.namesake] "Id" (Mock.world [] ∅ ∅)
      = (Returns d, log_more (Mock.world [] ∅ ∅) warnings) /\
    Forall overwrite_warning warnings /\
    forall k, dict_get k d = last_with "Id" k [Mock.contact; Mock.namesake].
Proof.
  apply (list_to_dict_last_occurrence_wins [Mock.contact; Mock.namesake] "Id"
           (Mock.world [] ∅ ∅)).
  intros record [<-|[<-|[]]]; exists (KInt 7); reflexivity.
Defined.

(** The caller's dictionary after a call with ['$top'] and a select list. *)
Lemma get_all_data_rewrites_callers_params_witness :
  store (snd (get_all_data 3 Mock.client "Items" (Some 1%positive) (Some ["Id"; "Name"])
                (Mock.world [Mock.ok Mock.page_two] {[ 1%positive := Mock.first_five ]} ∅)))
    !! 1%positive
  = Some [(KStr "$filter", PStr "Id gt 1"); (KStr "$select", PStr "Id,Name")].
Proof.
  apply (get_all_data_rewrites_callers_params 3 Mock.client "Items" 1%positive
           (Some ["Id"; "Name"]) Mock.first_five
           (Mock.world [Mock.ok Mock.page_two] {[ 1%positive := Mock.first_five ]} ∅)).
  reflexivity.
Defined.

(** C9. [upload_document_from_file] does not hand the caller's
    [document_object] to [upload_document] as the document options: the
    call is positional and binds it to [folder_id].  For the file
    [/tmp/report.txt] and the document object [{'Number': 'D-1'}] the
    metadata sent is [{'FolderId': {'Number': 'D-1'}}], the caller's
    dictionary is left without a ['FolderId'], and no call of
    [upload_document] with that dictionary as its options, whatever the
    folder, does the same. *)
Theorem upload_document_from_file_misplaces_document_object :
  let report := {| anchored := true; parts := ["tmp"; "report.txt"] |} in
  let document_object := [(KStr "Number", PStr "D-1")] in
  let w := Mock.world [Mock.status 200 "ok"] {[ 1%positive := document_object ]}
             {[ "/tmp/report.txt" := RegularFile "hello" ]} in
  let run := upload_document_from_file Mock.client (IsPath report) (Some 1%positive) w in
  fst run = Returns {| status_code := 200; content := "ok" |} /\
  sent (snd run) =
    [create_request Mock.api Mock.auth
       [("document",
         (None, Mock.dumps (PDict [(KStr "FolderId", PDict document_object)])));
        ("fileData", (Some "report.txt", "hello"))]] /\
  store (snd run) !! 1%positive = Some document_object /\
  forall folder_id,
    run <> upload_document Mock.client "hello" "report.txt" folder_id (Some 1%positive) w.
Proof.
  intros report document_object w run.
  split; [vm_compute; reflexivity|].
  split; [vm_compute; reflexivity|].
  split; [vm_compute; reflexivity|].
  intros folder_id Heq.
  apply (f_equal (fun r => store (snd r) !! 1%positive)) in Heq.
  vm_compute in Heq. discriminate Heq.
Qed.

(** *** Further runs *)

Example get_single_data_returns_body :
  fst (get_single_data Mock.client "Contacts" 7 None
         (Mock.world [Mock.ok Mock.contact] ∅ ∅)) = Returns Mock.contact.
Proof. vm_compute. reflexivity. Qed.

Example get_single_data_error_page :
  fst (get_single_data Mock.client "Contacts" 7 None
         (Mock.world [Mock.status 500 "<html>Server Error</html>"] ∅ ∅))
  = Raises JSONDecodeError.
Proof. vm_compute. reflexivity. Qed.

Example get_all_data_first_request :
  sent (snd (get_all_data 3 Mock.client "Items" (Some 1%positive) (Some ["Id"; "Name"])
               (Mock.world [Mock.ok Mock.page_two] {[ 1%positive := Mock.first_five ]} ∅)))
  = [get_request "https://landax.test/api/v20/Items?$filter=Id gt 1&$select=Id,Name"
       Mock.auth].
Proof. vm_compute. reflexivity. Qed.

(** The loop has no bound of its own: a remote end that keeps naming a
    next page keeps it going for as long as there is fuel. *)
Example get_all_data_keeps_following :
  fst (get_all_data 2 Mock.client "Items" None None
         (Mock.world [Mock.ok Mock.page_one; Mock.ok Mock.page_one;
                      Mock.ok Mock.page_one; Mock.ok Mock.page_one] ∅ ∅))
  = OutOfFuel.
Proof. vm_compute. reflexivity. Qed.

Example init_keeps_token :
  fst (__init__ Mock.module_dir "landax.test" Mock.credentials "v20"
         (Mock.world [Mock.ok Mock.token_body] ∅ ∅)) = Returns Mock.client.
Proof. vm_compute. reflexivity. Qed.

Example init_on_html_token_answer :
  fst (__init__ Mock.module_dir "landax.test" Mock.credentials "v20"
         (Mock.world [Mock.status 200 "<html>Maintenance</html>"] ∅ ∅))
  = Raises JSONDecodeError.
Proof. vm_compute. reflexivity. Qed.

Example init_on_refused_login :
  fst (__init__ Mock.module_dir "landax.test" Mock.credentials "v20"
         (Mock.world [Mock.status 401 "denied"] ∅ ∅))
  = Raises (LandaxAuthException
              "Landax returned non-200 response when getting OAuth token. Body: b'denied'").
Proof. vm_compute. reflexivity. Qed.

(** [True] and [1] are one key: the entry keeps the key it was created
    with and takes the later record. *)
Example list_to_dict_true_is_one :
  list_to_dict [PDict [(KStr "Id", PBool true)]; PDict [(KStr "Id", PInt 1)]] "Id"
    (Mock.world [] ∅ ∅)
  = (Returns [(KBool true, PDict [(KStr "Id", PInt 1)])],
     log_more (Mock.world [] ∅ ∅) [Print "Warning: 1 already present, overwriting"]).
Proof. vm_compute. reflexivity. Qed.

Example upload_linked_document_to_incident :
  sent (snd (upload_linked_document Mock.client "bytes" "a.txt" PNone "INCIDENTS" 40 None
               (Mock.world [Mock.status 200 "ok"] ∅
                  {[ "/opt/pylandax/modules.json" := RegularFile (Mock.dumps Mock.module_table) ]})))
  = [create_request Mock.api Mock.auth
       [("document", (None, Mock.dumps (PDict [(KStr "ModuleId", PInt 6)])));
        ("fileData", (Some "a.txt", "bytes"));
        ("documentLink", (None, Mock.dumps (PDict [(KStr "IncidentId", PInt 40)])))]].
Proof. vm_compute. reflexivity. Qed.

(** *** The other methods on the test double *)

Lemma post_data_sends_json_witness :
  fst (post_data Mock.client "Contacts" Mock.contact
         (Mock.world [Mock.status 500 "Server Error"] ∅ ∅))
  = Returns {| status_code := 500; content := "Server Error" |}.
Proof.
  destruct (post_data_sends_json Mock.client "Contacts" Mock.contact
              (Mock.world [Mock.status 500 "Server Error"] ∅ ∅) Mock.api Mock.auth
              {| status_code := 500; content := "Server Error" |} []
              eq_refl eq_refl eq_refl) as [Hrun _].
  rewrite Hrun. reflexivity.
Defined.

Lemma patch_data_sends_json_witness :
  fst (patch_data Mock.client "Contacts" 7 Mock.namesake
         (Mock.world [Mock.status 204 ""] ∅ ∅))
  = Returns {| status_code := 204; content := "" |}.
Proof.
  destruct (patch_data_sends_json Mock.client "Contacts" 7 Mock.namesake
              (Mock.world [Mock.status 204 ""] ∅ ∅) Mock.api Mock.auth
              {| status_code := 204; content := "" |} []
              eq_refl eq_refl eq_refl) as [Hrun _].
  rewrite Hrun. reflexivity.
Defined.

Lemma methods_need_api_url_witness :
  fst (get_all_data 3 Stranger.client "Items" None None (Mock.world [] ∅ ∅))
  = Raises (AttributeError "api_url").
Proof.
  destruct (methods_need_api_url Stranger.client (Mock.world [] ∅ ∅) "Items" 7 "7"
              PNone None [] 3 None false "GET" eq_refl eq_refl)
    as (_ & _ & _ & _ & _ & _ & Hrun & _).
  exact Hrun.
Defined.

Lemma custom_request_dispatch_witness :
  exists msg,
    fst (custom_request Mock.client "Documents/GetDocument" "get" PNone
           (Mock.world [Mock.status 200 "ok"] ∅ ∅))
    = Returns (inl (ValueError msg)).
Proof.
  destruct (custom_request_dispatch Mock.client "Documents/GetDocument" "get" PNone
              (Mock.world [Mock.status 200 "ok"] ∅ ∅) Mock.api Mock.auth
              eq_refl eq_refl) as [Hiff _].
  apply Hiff. intros [H|[H|[H|H]]]; discriminate H.
Defined.

Lemma request_data_agrees_on_single_page_witness :
  fst (get_all_data 3 Mock.client "Items" None None (Mock.world [Mock.ok Mock.page_two] ∅ ∅))
  = fst (request_data Mock.client (Mock.api +:+ "Items")
           (Mock.world [Mock.ok Mock.page_two] ∅ ∅)).
Proof.
  destruct (request_data_agrees_on_single_page 3 Mock.client "Items"
              (Mock.world [Mock.ok Mock.page_two] ∅ ∅) Mock.api Mock.auth
              {| status_code := 200; content := Mock.dumps Mock.page_two |} []
              Mock.page_two eq_refl eq_refl eq_refl)
    as [_ Hsame]; [vm_compute; reflexivity|].
  apply Hsame. reflexivity.
Defined.

Lemma get_single_data_passes_params_through_witness :
  store (snd (get_single_data Mock.client "Contacts" 7 (Some 1%positive)
                (Mock.world [Mock.ok Mock.contact] {[ 1%positive := Mock.first_five ]} ∅)))
  = {[ 1%positive := Mock.first_five ]}.
Proof.
  destruct (get_single_data_passes_params_through Mock.client "Contacts" 7 1%positive
              Mock.first_five
              (Mock.world [Mock.ok Mock.contact] {[ 1%positive := Mock.first_five ]} ∅)
              Mock.api Mock.auth eq_refl eq_refl) as (_ & _ & Hstore);
    [reflexivity | exact Hstore].
Defined.

Lemma get_documents_filters_by_folder_witness :
  exists w',
    get_documents 1 Mock.client 12
      (Mock.world [Mock.ok Mock.page_one; Mock.ok Mock.page_two] ∅ ∅)
    = (Returns (PList [PInt 1; PInt 2; PInt 3]), w') /\
    net w' = [] /\ length (sent w') = 2%nat /\ console w' = [] /\
    forall l d, (∅ : gmap loc dict) !! l = Some d -> store w' !! l = Some d.
Proof.
  apply (get_documents_filters_by_folder 1 Mock.client 12
           (Mock.world [Mock.ok Mock.page_one; Mock.ok Mock.page_two] ∅ ∅)
           Mock.api Mock.auth [[PInt 1; PInt 2]; [PInt 3]] []).
  - reflexivity.
  - reflexivity.
  - exists {| status_code := 200; content := Mock.dumps Mock.page_one |},
           [Mock.ok Mock.page_two], Mock.page_one.
    split; [reflexivity|]. split; [vm_compute; reflexivity|]. split; [reflexivity|].
    exists "https://landax.test/api/v20/Items?$skip=2". split; [reflexivity|].
    exists {| status_code := 200; content := Mock.dumps Mock.page_two |},
           [], Mock.page_two.
    split; [reflexivity|]. split; [vm_compute; reflexivity|]. split; [reflexivity|].
    split; reflexivity.
  - cbn. lia.
Defined.

Lemma get_linked_documents_pages_witness :
  exists w',
    get_linked_documents 0 Mock.client "Incidents" 36
      (Mock.world [Mock.ok Mock.page_two] ∅ ∅)
    = (Returns (PList [PInt 3]), w') /\
    net w' = [] /\ length (sent w') = 1%nat /\ console w' = [].
Proof.
  destruct (get_linked_documents_pages 0 Mock.client "Incidents" 36
              (Mock.world [Mock.ok Mock.page_two] ∅ ∅)
              Mock.api Mock.auth [[PInt 3]] []) as [_ Hrun].
  - reflexivity.
  - reflexivity.
  - exists {| status_code := 200; content := Mock.dumps Mock.page_two |},
           [], Mock.page_two.
    split; [reflexivity|]. split; [vm_compute; reflexivity|]. split; [reflexivity|].
    split; reflexivity.
  - cbn. lia.
  - exact Hrun.
Defined.

Lemma get_all_data_answer_without_value_witness :
  fst (get_all_data 3 Mock.client "Items" None None
         (Mock.world [Mock.ok Mock.token_body] ∅ ∅))
  = Raises (KeyError "value").
Proof.
  destruct (get_all_data_answer_without_value 3 Mock.client "Items" None None []
              (Mock.world [Mock.ok Mock.token_body] ∅ ∅) Mock.api Mock.auth
              {| status_code := 200; content := Mock.dumps Mock.token_body |} []
              [(KStr "access_token", PStr "s3cr3t")]
              eq_refl eq_refl eq_refl eq_refl ltac:(vm_compute; reflexivity) eq_refl)
    as [Hrun _].
  exact Hrun.
Defined.

Lemma get_all_data_never_stops_on_endless_links_witness :
  fst (@get_all_data Carousel.runtime 1000 Mock.client "Items" None None Carousel.world)
  = OutOfFuel.
Proof.
  apply (@get_all_data_never_stops_on_endless_links Carousel.runtime Mock.client "Items"
           None None [] Carousel.world Mock.api Mock.auth).
  - reflexivity.
  - reflexivity.
  - reflexivity.
  - intros r n.
    exists {| status_code := 200; content := Mock.dumps Mock.page_one |}, tt,
           Mock.page_one, [PInt 1; PInt 2], "https://landax.test/api/v20/Items?$skip=2".
    split; [destruct n; reflexivity|]. split; [vm_compute; reflexivity|].
    split; reflexivity.
Defined.

Lemma upload_document_controls_folder_witness :
  exists w',
    upload_document Mock.client "bytes" "a.txt" (PInt 12) (Some 1%positive)
      (Mock.world [Mock.status 200 "ok"] {[ 1%positive := Fixture.stale_options ]} ∅)
    = (Returns {| status_code := 200; content := "ok" |}, w') /\
    store w' !! 1%positive = Some [(KStr "FolderId", PInt 12); (KStr "Number", PStr "D-1")].
Proof.
  destruct (upload_document_controls_folder Mock.client "bytes" "a.txt" (PInt 12)
              1%positive Fixture.stale_options
              (Mock.world [Mock.status 200 "ok"] {[ 1%positive := Fixture.stale_options ]} ∅)
              Mock.api Mock.auth {| status_code := 200; content := "ok" |} []
              eq_refl eq_refl) as (w' & Hrun & _ & _ & Hstore & _);
    [reflexivity | reflexivity |].
  exists w'. split; [exact Hrun | exact Hstore].
Defined.

Lemma upload_linked_document_links_witness :
  fst (upload_linked_document Mock.client "bytes" "a.txt" (PInt 12) "INCIDENTS" 40
         (Some 1%positive)
         (Mock.world [Mock.status 500 "no"] {[ 1%positive := Fixture.stale_options ]}
            {[ "/opt/pylandax/modules.json" := RegularFile (Mock.dumps Mock.module_table) ]}))
  = Returns (Some {| status_code := 500; content := "no" |}).
Proof.
  destruct (upload_linked_document_links Mock.client "bytes" "a.txt" (PInt 12)
              "INCIDENTS" 40 1%positive Fixture.stale_options
              (Mock.world [Mock.status 500 "no"] {[ 1%positive := Fixture.stale_options ]}
                 {[ "/opt/pylandax/modules.json" := RegularFile (Mock.dumps Mock.module_table) ]})
              (Mock.dumps Mock.module_table)
              [(KStr "INCIDENTS", PInt 6); (KStr "PROJECTS", PInt 3)] 6 "IncidentId"
              Mock.api Mock.auth {| status_code := 500; content := "no" |} []
              eq_refl eq_refl) as (Hrun & _);
    [reflexivity | vm_compute; reflexivity | vm_compute; reflexivity
    | reflexivity | reflexivity | reflexivity |].
  exact Hrun.
Defined.

Lemma upload_linked_document_sends_options_folder_witness :
  dict_get (KStr "FolderId")
    (dict_set (KStr "ModuleId") (PInt 6) Fixture.stale_options) = Some (PInt 99).
Proof.
  destruct (upload_linked_document_sends_options_folder Mock.client "bytes" "a.txt"
              (PInt 12) "INCIDENTS" 40 1%positive Fixture.stale_options
              (Mock.world [Mock.status 200 "ok"] {[ 1%positive := Fixture.stale_options ]}
                 {[ "/opt/pylandax/modules.json" := RegularFile (Mock.dumps Mock.module_table) ]})
              (Mock.dumps Mock.module_table)
              [(KStr "INCIDENTS", PInt 6); (KStr "PROJECTS", PInt 3)] 6 "IncidentId"
              Mock.api Mock.auth {| status_code := 200; content := "ok" |} [] (PInt 99)
              eq_refl eq_refl) as (_ & Hfolder & _);
    [reflexivity | vm_compute; reflexivity | vm_compute; reflexivity
    | reflexivity | reflexivity | reflexivity | reflexivity |].
  exact Hfolder.
Defined.

Lemma upload_linked_document_needs_table_witness :
  fst (upload_linked_document Mock.client "bytes" "a.txt" PNone "INCIDENTS" 40 None
         (Mock.world [Mock.status 200 "ok"] ∅ ∅))
  = Raises (FileNotFoundError "/opt/pylandax/modules.json").
Proof.
  destruct (upload_linked_document_needs_table Mock.client "bytes" "a.txt" PNone
              "INCIDENTS" 40 None [] (Mock.world [Mock.status 200 "ok"] ∅ ∅)
              eq_refl) as [Hrun _]; [reflexivity|].
  exact Hrun.
Defined.

Lemma upload_document_from_file_needs_regular_file_witness :
  fst (upload_document_from_file Mock.client
         (IsPath {| anchored := true; parts := ["tmp"] |}) None
         (Mock.world [Mock.status 200 "ok"] ∅ {[ "/tmp" := Directory ]}))
  = Raises (IsADirectoryError "/tmp").
Proof.
  destruct (upload_document_from_file_needs_regular_file Mock.client
              {| anchored := true; parts := ["tmp"] |} None
              (Mock.world [Mock.status 200 "ok"] ∅ {[ "/tmp" := Directory ]}))
    as (_ & _ & Hdir).
  - intros data. vm_compute. discriminate.
  - apply Hdir. reflexivity.
Defined.


Lemma init_rejects_non_string_token_witness :
  fst (@__init__ Fixture.runtime Mock.module_dir "landax.test" Mock.credentials "v20"
         (Fixture.world [Mock.ok Fixture.numeric_token]))
  = Raises (TypeError "unsupported operand type(s) for +").
Proof.
  destruct (@init_rejects_non_string_token Fixture.runtime
              Mock.module_dir "landax.test" Mock.credentials
              "v20" (Fixture.world [Mock.ok Fixture.numeric_token])
              (PStr "ada") (PStr "pw") (PStr "cid") (PStr "cs")
              {| status_code := 200; content := Mock.dumps Fixture.numeric_token |} []
              [(KStr "access_token", PInt 42)] (PInt 42)
              eq_refl eq_refl eq_refl eq_refl eq_refl eq_refl)
    as [Hrun _]; [vm_compute; reflexivity | reflexivity | intros s; discriminate |].
  exact Hrun.
Defined.

Lemma list_to_dict_entries_and_warnings_witness :
  exists d warnings,
    list_to_dict [Mock.contact; Mock.namesake] "Id" (Mock.world [] ∅ ∅)
      = (Returns d, log_more (Mock.world [] ∅ ∅) warnings) /\
    NoDup (List.map (fun e => key_norm (fst e)) d) /\
    (length d + length warnings = 2)%nat.
Proof.
  apply (list_to_dict_entries_and_warnings [Mock.contact; Mock.namesake] "Id"
           (Mock.world [] ∅ ∅)).
  intros record [<-|[<-|[]]]; exists (KInt 7); reflexivity.
Defined.

Lemma list_to_dict_stops_at_bad_record_witness :
  fst (list_to_dict [Mock.contact; PDict [(KStr "Name", PStr "Eve")]; Mock.namesake] "Id"
         (Mock.world [] ∅ ∅))
  = Raises (KeyError "Id").
Proof.
  destruct (list_to_dict_stops_at_bad_record [Mock.contact]
              (PDict [(KStr "Name", PStr "Eve")]) [Mock.namesake] "Id"
              (Mock.world [] ∅ ∅)) as [Hrun _].
  - intros r [<-|[]]. exists (KInt 7). reflexivity.
  - reflexivity.
  - exact Hrun.
Defined.
